(** * Market dashboard: composite score, indicator scoring and stance

    A shallow embedding of the scoring core of the dashboard:
    - [src/lib/composite-score.ts]: [INDICATOR_STATS], [getValue],
      [calculateCompositeScore];
    - [src/Market.tsx]: [normalizeScore], [applyExtremeCap],
      [indicatorTiming], [calculateMomentumScore], [getThreeMonthAgoValue],
      [calculateIndicatorScores], [determineInvestmentStance],
      [generateExtremeIndicatorCommentary].

    Numbers.  A TypeScript [number] is modelled by an exact rational [Q]:
    the arithmetic of the source is carried out without rounding error, and
    the values NaN and the infinities are not represented.  [null] and
    [undefined] are both [None].  The source computes in IEEE doubles, which
    round every operation: the properties below are about ranges, weak
    order, selection and structure, which that rounding keeps, and none
    of them states an exact algebraic identity of the intermediate values.

    Strings.  The texts put together from formatted numbers are kept as
    lists of pieces, see [Js.Piece].

    Arrays.  [Array.prototype.sort] is stable; it is modelled by a stable
    insertion sort, see [Market.sort]. *)

From Stdlib Require Import QArith Qround ZArith Lia Lqa.
From Stdlib Require Import Bool List String.
From Stdlib Require Import Sorting.Sorted Sorting.Permutation.
Import ListNotations.

Open Scope Q_scope.

(** ** The fragment of the JavaScript [Math] object used by the source *)

Module JsMath.

Definition max (a b : Q) : Q := if Qle_bool a b then b else a.

Definition min (a b : Q) : Q := if Qle_bool a b then a else b.

(** [Math.round] rounds to the nearest integer, halves upwards. *)
Definition round (x : Q) : Q := inject_Z (Qfloor (x + (1 # 2))).

End JsMath.

(** ** JavaScript values that the source builds or looks up *)

Module Js.

(** A string made by a template literal or by [toFixed].  The decimal
    rendering of a number is the runtime's, so it is kept symbolic:
    [ToFixed x d] stands for [x.toFixed(d)] and [ToString x] for the
    interpolation [`${x}`] of the number [x]. *)
Inductive Piece : Type :=
| Text (s : string)
| ToFixed (x : Q) (digits : nat)
| ToString (x : Q).

Definition JsString : Type := list Piece.

(** A value of type [number | string]. *)
Inductive NumberOrString : Type :=
| IsNumber (x : Q)
| IsString (s : JsString).

(** The interpolation [`${v}`] of a [number | string]. *)
Definition interpolate (v : NumberOrString) : JsString :=
  match v with
  | IsNumber x => [ToString x]
  | IsString s => s
  end.

(** An object literal used as [Record<string, A>], read with
    [record[key]]: the keys are the own properties of the literal, and a
    missing key reads as [undefined], here [None]. *)
Definition Record_ (A : Type) : Type := list (string * A).

Fixpoint lookup {A : Type} (record : Record_ A) (key : string) : option A :=
  match record with
  | [] => None
  | (k, a) :: rest => if String.eqb k key then Some a else lookup rest key
  end.

(** Truthiness of a number: [0] is falsy.  ([null] is falsy too; it is
    the [None] branch wherever a [number | null] is tested.) *)
Definition truthy (v : Q) : bool := negb (Qeq_bool v 0).

End Js.

(** ** [src/lib/composite-score.ts] *)

Module CompositeScore.

Record IndicatorStat : Type := mkStat {
  mean : Q;
  std : Q;
  invert : bool;
  weight : Q
}.

(** The entries of the table [INDICATOR_STATS]; the source reads them with
    a constant key, as in [INDICATOR_STATS['HY Spread']]. *)
Definition stat_HY_Spread : IndicatorStat :=
  mkStat 5.134 2.5271 false 0.281.
Definition stat_VIX : IndicatorStat :=
  mkStat 20.097 8.0555 false 0.2569.
Definition stat_Initial_Claims : IndicatorStat :=
  mkStat 358862.6001 318057.9358 false 0.2351.
Definition stat_SP_vs_200MA : IndicatorStat :=
  mkStat 3.4949 7.9576 true 0.1628.
Definition stat_Yield_Curve_10Y2Y : IndicatorStat :=
  mkStat 0.9484 0.929 false 0.0629.

Definition INDICATOR_STATS : Js.Record_ IndicatorStat :=
  [ ("HY Spread"%string, stat_HY_Spread);
    ("VIX"%string, stat_VIX);
    ("Initial Claims"%string, stat_Initial_Claims);
    ("S&P vs 200MA"%string, stat_SP_vs_200MA);
    ("Yield Curve 10Y-2Y"%string, stat_Yield_Curve_10Y2Y) ].

(** The interface [CompositeScoreInput]: every field is optional and may
    hold [null]. *)
Record CompositeScoreInput : Type := mkInput {
  hySpread : option Q;
  hy_spread : option Q;
  vix : option Q;
  initialClaims : option Q;
  initial_claims : option Q;
  spyVs200MA : option Q;
  spyVs200ma : option Q;
  spy_vs_200ma : option Q;
  yieldCurve10Y2Y : option Q;
  yield_curve_10y2y : option Q
}.

(** The object literal [{}]. *)
Definition empty : CompositeScoreInput :=
  mkInput None None None None None None None None None None.

(** [getValue(data, ...keys)]: the first key whose value is neither
    [undefined] nor [null]. *)
Fixpoint getValue (data : CompositeScoreInput)
    (keys : list (CompositeScoreInput -> option Q)) : option Q :=
  match keys with
  | [] => None
  | key :: rest =>
      match key data with
      | Some val => Some val
      | None => getValue data rest
      end
  end.

(** The two accumulators [weightedZScore] and [totalWeight]. *)
Record Acc : Type := mkAcc { weightedZScore : Q; totalWeight : Q }.

(** One of the five [if (x !== null) { ... }] blocks. *)
Definition accumulate (stat : IndicatorStat) (x : option Q) (acc : Acc) : Acc :=
  match x with
  | Some x =>
      let value := if invert stat then - x else x in
      let zscore := (value - mean stat) / std stat in
      mkAcc (weightedZScore acc + zscore * weight stat)
            (totalWeight acc + weight stat)
  | None => acc
  end.

(** The state of the accumulators when line 99 is reached. *)
Definition accumulated (data : CompositeScoreInput) : Acc :=
  let acc := mkAcc 0 0 in
  let acc := accumulate stat_HY_Spread
               (getValue data [hySpread; hy_spread]) acc in
  let acc := accumulate stat_VIX (getValue data [vix]) acc in
  let acc := accumulate stat_Initial_Claims
               (getValue data [initialClaims; initial_claims]) acc in
  let acc := accumulate stat_SP_vs_200MA
               (getValue data [spyVs200MA; spyVs200ma; spy_vs_200ma]) acc in
  accumulate stat_Yield_Curve_10Y2Y
    (getValue data [yieldCurve10Y2Y; yield_curve_10y2y]) acc.

(** The local [score] of line 104, before clamping and rounding. *)
Definition rawScore (acc : Acc) : Q :=
  let avgZScore := weightedZScore acc / totalWeight acc in
  avgZScore * 10 + 50.

Definition calculateCompositeScore (data : CompositeScoreInput) : Q :=
  let acc := accumulated data in
  if Qeq_bool (totalWeight acc) 0 then 50
  else
    let score := rawScore acc in
    JsMath.round (JsMath.max 0 (JsMath.min 100 score) * 100) / 100.

(** Object spread with one field overridden, [{ ...data, key: x }], for
    the keys that the statements below vary. *)
Definition with_hy_spread (x : option Q) (d : CompositeScoreInput) :=
  mkInput (hySpread d) x (vix d) (initialClaims d) (initial_claims d)
    (spyVs200MA d) (spyVs200ma d) (spy_vs_200ma d)
    (yieldCurve10Y2Y d) (yield_curve_10y2y d).

Definition with_vix (x : option Q) (d : CompositeScoreInput) :=
  mkInput (hySpread d) (hy_spread d) x (initialClaims d) (initial_claims d)
    (spyVs200MA d) (spyVs200ma d) (spy_vs_200ma d)
    (yieldCurve10Y2Y d) (yield_curve_10y2y d).

Definition with_initial_claims (x : option Q) (d : CompositeScoreInput) :=
  mkInput (hySpread d) (hy_spread d) (vix d) (initialClaims d) x
    (spyVs200MA d) (spyVs200ma d) (spy_vs_200ma d)
    (yieldCurve10Y2Y d) (yield_curve_10y2y d).

Definition with_spyVs200MA (x : option Q) (d : CompositeScoreInput) :=
  mkInput (hySpread d) (hy_spread d) (vix d) (initialClaims d)
    (initial_claims d) x (spyVs200ma d) (spy_vs_200ma d)
    (yieldCurve10Y2Y d) (yield_curve_10y2y d).

Definition with_spyVs200ma (x : option Q) (d : CompositeScoreInput) :=
  mkInput (hySpread d) (hy_spread d) (vix d) (initialClaims d)
    (initial_claims d) (spyVs200MA d) x (spy_vs_200ma d)
    (yieldCurve10Y2Y d) (yield_curve_10y2y d).

Definition with_spy_vs_200ma (x : option Q) (d : CompositeScoreInput) :=
  mkInput (hySpread d) (hy_spread d) (vix d) (initialClaims d)
    (initial_claims d) (spyVs200MA d) (spyVs200ma d) x
    (yieldCurve10Y2Y d) (yield_curve_10y2y d).

Definition with_yield_curve_10y2y (x : option Q) (d : CompositeScoreInput) :=
  mkInput (hySpread d) (hy_spread d) (vix d) (initialClaims d)
    (initial_claims d) (spyVs200MA d) (spyVs200ma d) (spy_vs_200ma d)
    (yieldCurve10Y2Y d) x.

End CompositeScore.

(** ** [src/Market.tsx]: data *)

(** The interface [MarketHistoryRecord]. *)
Module MarketHistoryRecord.

(** [keyof MarketHistoryRecord]. *)
Module Key.
Inductive t : Type :=
| date | fear_greed | vix | spy_vs_200ma | buffett_indicator
| fed_balance_sheet_yoy | m2_growth_yoy | hy_spread | yield_curve_10y2y
| yield_curve_10y3m | initial_claims | erp | spy_price | composite_score
| qqq_price | gld_price | schd_price | vym_price | treasury_3m
| gdp_growth_qoq | ism_manufacturing | ism_services | retail_sales_yoy
| cpi_yoy | core_cpi_yoy | pce_yoy | core_pce_yoy | ppi_yoy
| nonfarm_payrolls_mom | unemployment_rate | labor_participation
| treasury_10y | treasury_2y | dollar_index.
End Key.

Record t : Type := mk {
  date : string;
  fear_greed : option Q;
  vix : option Q;
  spy_vs_200ma : option Q;
  buffett_indicator : option Q;
  fed_balance_sheet_yoy : option Q;
  m2_growth_yoy : option Q;
  hy_spread : option Q;
  yield_curve_10y2y : option Q;
  yield_curve_10y3m : option Q;
  initial_claims : option Q;
  erp : option Q;
  spy_price : option Q;
  composite_score : Q;
  qqq_price : option Q;
  gld_price : option Q;
  schd_price : option Q;
  vym_price : option Q;
  treasury_3m : option Q;
  gdp_growth_qoq : option Q;
  ism_manufacturing : option Q;
  ism_services : option Q;
  retail_sales_yoy : option Q;
  cpi_yoy : option Q;
  core_cpi_yoy : option Q;
  pce_yoy : option Q;
  core_pce_yoy : option Q;
  ppi_yoy : option Q;
  nonfarm_payrolls_mom : option Q;
  unemployment_rate : option Q;
  labor_participation : option Q;
  treasury_10y : option Q;
  treasury_2y : option Q;
  dollar_index : option Q
}.

(** What [record[field]] evaluates to. *)
Inductive FieldValue : Type :=
| VString (s : string)
| VNumber (x : Q)
| VNull.

Definition nullable (x : option Q) : FieldValue :=
  match x with Some v => VNumber v | None => VNull end.

Definition index (record : t) (field : Key.t) : FieldValue :=
  match field with
  | Key.date => VString (date record)
  | Key.fear_greed => nullable (fear_greed record)
  | Key.vix => nullable (vix record)
  | Key.spy_vs_200ma => nullable (spy_vs_200ma record)
  | Key.buffett_indicator => nullable (buffett_indicator record)
  | Key.fed_balance_sheet_yoy => nullable (fed_balance_sheet_yoy record)
  | Key.m2_growth_yoy => nullable (m2_growth_yoy record)
  | Key.hy_spread => nullable (hy_spread record)
  | Key.yield_curve_10y2y => nullable (yield_curve_10y2y record)
  | Key.yield_curve_10y3m => nullable (yield_curve_10y3m record)
  | Key.initial_claims => nullable (initial_claims record)
  | Key.erp => nullable (erp record)
  | Key.spy_price => nullable (spy_price record)
  | Key.composite_score => VNumber (composite_score record)
  | Key.qqq_price => nullable (qqq_price record)
  | Key.gld_price => nullable (gld_price record)
  | Key.schd_price => nullable (schd_price record)
  | Key.vym_price => nullable (vym_price record)
  | Key.treasury_3m => nullable (treasury_3m record)
  | Key.gdp_growth_qoq => nullable (gdp_growth_qoq record)
  | Key.ism_manufacturing => nullable (ism_manufacturing record)
  | Key.ism_services => nullable (ism_services record)
  | Key.retail_sales_yoy => nullable (retail_sales_yoy record)
  | Key.cpi_yoy => nullable (cpi_yoy record)
  | Key.core_cpi_yoy => nullable (core_cpi_yoy record)
  | Key.pce_yoy => nullable (pce_yoy record)
  | Key.core_pce_yoy => nullable (core_pce_yoy record)
  | Key.ppi_yoy => nullable (ppi_yoy record)
  | Key.nonfarm_payrolls_mom => nullable (nonfarm_payrolls_mom record)
  | Key.unemployment_rate => nullable (unemployment_rate record)
  | Key.labor_participation => nullable (labor_participation record)
  | Key.treasury_10y => nullable (treasury_10y record)
  | Key.treasury_2y => nullable (treasury_2y record)
  | Key.dollar_index => nullable (dollar_index record)
  end.

(** A record of the given date whose nullable fields are all [null]. *)
Definition blank (d : string) (score : Q) : t :=
  mk d None None None None None None None None None None None None
    score None None None None None None None None None None None None None
    None None None None None None None.

(** [{ ...record, vix: x }] *)
Definition with_vix (x : option Q) (r : t) : t :=
  mk (date r) (fear_greed r) x (spy_vs_200ma r) (buffett_indicator r)
    (fed_balance_sheet_yoy r) (m2_growth_yoy r) (hy_spread r)
    (yield_curve_10y2y r) (yield_curve_10y3m r) (initial_claims r) (erp r)
    (spy_price r) (composite_score r) (qqq_price r) (gld_price r)
    (schd_price r) (vym_price r) (treasury_3m r) (gdp_growth_qoq r)
    (ism_manufacturing r) (ism_services r) (retail_sales_yoy r) (cpi_yoy r)
    (core_cpi_yoy r) (pce_yoy r) (core_pce_yoy r) (ppi_yoy r)
    (nonfarm_payrolls_mom r) (unemployment_rate r) (labor_participation r)
    (treasury_10y r) (treasury_2y r) (dollar_index r).

End MarketHistoryRecord.

(** The interface [MarketIndicators] and the shapes of its object-valued
    fields. *)
Module FearGreed.
Record t : Type := mk {
  value : Q;
  rating : string;
  previousClose : Q;
  oneWeekAgo : Q;
  oneMonthAgo : Q;
  oneYearAgo : Q
}.
End FearGreed.

Module SpyVs200MA.
Record t : Type := mk {
  currentPrice : Q;
  ma200 : Q;
  percentAbove : Q
}.
End SpyVs200MA.

Module BuffettIndicator.
Record t : Type := mk {
  value : Q;
  gdp : Q;
  marketCap : Q
}.
End BuffettIndicator.

(** [{ value: number; yoyChange: number }], the shape of both
    [fedBalanceSheet] and [m2Growth]. *)
Module YoY.
Record t : Type := mk {
  value : Q;
  yoyChange : Q
}.
End YoY.

Module InitialClaims.
Record t : Type := mk {
  value : Q;
  fourWeekAvg : Q
}.
End InitialClaims.

Module MarketIndicators.
Record t : Type := mk {
  fearGreed : option FearGreed.t;
  vix : option Q;
  spyVs200MA : option SpyVs200MA.t;
  buffettIndicator : option BuffettIndicator.t;
  fedBalanceSheet : option YoY.t;
  m2Growth : option YoY.t;
  highYieldSpread : option Q;
  yieldCurve10Y2Y : option Q;
  yieldCurve10Y3M : option Q;
  initialClaims : option InitialClaims.t;
  erp : option Q;
  treasury3m : option Q;
  lastUpdated : string
}.

(** [{ ...data, vix: x }] and [{ ...data, highYieldSpread: x }]. *)
Definition with_vix (x : option Q) (d : t) : t :=
  mk (fearGreed d) x (spyVs200MA d) (buffettIndicator d)
    (fedBalanceSheet d) (m2Growth d) (highYieldSpread d)
    (yieldCurve10Y2Y d) (yieldCurve10Y3M d) (initialClaims d) (erp d)
    (treasury3m d) (lastUpdated d).

Definition with_highYieldSpread (x : option Q) (d : t) : t :=
  mk (fearGreed d) (vix d) (spyVs200MA d) (buffettIndicator d)
    (fedBalanceSheet d) (m2Growth d) x
    (yieldCurve10Y2Y d) (yieldCurve10Y3M d) (initialClaims d) (erp d)
    (treasury3m d) (lastUpdated d).

(** A snapshot in which every indicator is [null]. *)
Definition blank (updated : string) : t :=
  mk None None None None None None None None None None None None updated.
End MarketIndicators.

Inductive IndicatorTiming : Type := leading | coincident | lagging.

Module IndicatorScore.
Record t : Type := mk {
  name : string;
  value : Js.NumberOrString;
  score : Q;
  baseScore : Q;
  momentumScore : Q;
  category : string;
  range : string;
  description : string;
  rawValue : Q;
  min : Q;
  max : Q;
  timing : IndicatorTiming
}.
End IndicatorScore.

Inductive InvestmentStance : Type :=
| aggressive_plus | aggressive | moderate_aggressive | neutral
| moderate_defensive | defensive | unknown.

(** ** [src/Market.tsx]: scoring *)

Module Market.

Local Open Scope string_scope.

Definition normalizeScore (value min max : Q) (invert : bool) : Q :=
  let clamped := JsMath.max min (JsMath.min max value) in
  let normalized := ((clamped - min) / (max - min)) * 100 in
  if invert then 100 - normalized else normalized.

(** [applyExtremeCap(score, minCap = 15, maxCap = 85)]; every call of the
    source leaves the two caps to their defaults. *)
Definition applyExtremeCap (score minCap maxCap : Q) : Q :=
  JsMath.max minCap (JsMath.min maxCap score).

Record TimingEntry : Type := mkTiming {
  timing : IndicatorTiming;
  currentWeight : Q;
  momentumWeight : Q
}.

Definition indicatorTiming : Js.Record_ TimingEntry :=
  [ ("Fear & Greed", mkTiming lagging 0.9 0.1);
    ("VIX", mkTiming coincident 0.7 0.3);
    ("S&P vs 200MA", mkTiming coincident 0.7 0.3);
    ("Buffett Indicator", mkTiming lagging 0.9 0.1);
    ("Equity Risk Premium", mkTiming coincident 0.7 0.3);
    ("Fed Balance Sheet", mkTiming leading 0.5 0.5);
    ("M2 Growth", mkTiming leading 0.5 0.5);
    ("HY Spread", mkTiming leading 0.5 0.5);
    ("Yield Curve 10Y-2Y", mkTiming leading 0.5 0.5);
    ("Yield Curve 10Y-3M", mkTiming leading 0.5 0.5);
    ("Initial Claims", mkTiming coincident 0.7 0.3) ].

Definition calculateMomentumScore
    (currentScore : Q) (threeMonthAgoScore : option Q) : Q :=
  match threeMonthAgoScore with
  | None => 50
  | Some threeMonthAgoScore =>
      let change := currentScore - threeMonthAgoScore in
      let normalizedChange := ((change + 30) / 60) * 100 in
      JsMath.max 0 (JsMath.min 100 normalizedChange)
  end.

Definition getThreeMonthAgoValue
    (history : list MarketHistoryRecord.t)
    (field : MarketHistoryRecord.Key.t) : option Q :=
  let targetIndex := Z.max 0 (Z.of_nat (List.length history) - 13) in
  match nth_error history (Z.to_nat targetIndex) with
  | None => None
  | Some record =>
      match MarketHistoryRecord.index record field with
      | MarketHistoryRecord.VNumber value => Some value
      | _ => None
      end
  end.

(** The array [scores] of [calculateIndicatorScores] is created empty,
    pushed onto by the statements of the body and returned: a statement
    is a function from the array before it to the array after it. *)
Definition Stmt : Type := list IndicatorScore.t -> list IndicatorScore.t.

Definition skip : Stmt := fun scores => scores.

Definition seq (first second : Stmt) : Stmt :=
  fun scores => second (first scores).

Notation "a ;; b" := (seq a b) (at level 61, right associativity).

(** The closure [addIndicator] of [calculateIndicatorScores]: [history] is
    the captured parameter and the call is a statement on [scores]. *)
Definition addIndicator
    (history : list MarketHistoryRecord.t)
    (name : string) (value : Js.NumberOrString) (rawValue baseScoreRaw : Q)
    (category range description : string) (min max : Q)
    (historyField : MarketHistoryRecord.Key.t) (invert : bool)
    : Stmt := fun scores =>
  let timingEntry :=
    match Js.lookup indicatorTiming name with
    | Some entry => entry
    | None => mkTiming coincident 0.7 0.3
    end in
  let baseScore := applyExtremeCap baseScoreRaw 15 85 in
  let threeMonthAgoValue := getThreeMonthAgoValue history historyField in
  let momentumScore :=
    match threeMonthAgoValue with
    | Some threeMonthAgoValue =>
        let threeMonthAgoScore :=
          if invert
          then normalizeScore threeMonthAgoValue min max true
          else normalizeScore threeMonthAgoValue min max false in
        calculateMomentumScore baseScoreRaw (Some threeMonthAgoScore)
    | None => 50
    end in
  let finalScore :=
    applyExtremeCap
      (baseScore * currentWeight timingEntry
       + momentumScore * momentumWeight timingEntry) 15 85 in
  (scores ++ [ IndicatorScore.mk name value finalScore baseScore
                 momentumScore category range description rawValue
                 min max (timing timingEntry) ])%list.

(** [x > 0 ? '+' : ''] *)
Definition plusSign (x : Q) : Js.Piece :=
  Js.Text (if Qle_bool x 0 then "" else "+").

Definition calculateIndicatorScores
    (data : MarketIndicators.t) (history : list MarketHistoryRecord.t)
    : list IndicatorScore.t :=
  let scores : list IndicatorScore.t := [] in
  ( match MarketIndicators.fearGreed data with
    | Some fearGreed =>
        addIndicator history
          "Fear & Greed"
          (Js.IsNumber (FearGreed.value fearGreed))
          (FearGreed.value fearGreed)
          (100 - FearGreed.value fearGreed)
          "sentiment"
          "0-100"
          "낮을수록(공포) 매력 상승, 높을수록(탐욕) 매력 하락"
          0 100
          MarketHistoryRecord.Key.fear_greed
          true
    | None => skip
    end ;;
    match MarketIndicators.vix data with
    | Some vix =>
        if Js.truthy vix then
          addIndicator history
            "VIX"
            (Js.IsString [Js.ToFixed vix 1])
            vix
            (normalizeScore vix 12 40 false)
            "sentiment"
            "12-40"
            "높을수록(공포) 매력 상승. 40+ 패닉은 적극 매수 구간"
            12 40
            MarketHistoryRecord.Key.vix
            false
        else skip
    | None => skip
    end ;;
    match MarketIndicators.spyVs200MA data with
    | Some spyVs200MA =>
        addIndicator history
          "S&P vs 200MA"
          (Js.IsString
             [plusSign (SpyVs200MA.percentAbove spyVs200MA);
              Js.ToFixed (SpyVs200MA.percentAbove spyVs200MA) 1;
              Js.Text "%"])
          (SpyVs200MA.percentAbove spyVs200MA)
          (normalizeScore (SpyVs200MA.percentAbove spyVs200MA) (-10) 10 true)
          "sentiment"
          "-10% ~ +10%"
          "200일선 아래일수록 매력 상승 (저점 매수 기회)"
          (-10) 10
          MarketHistoryRecord.Key.spy_vs_200ma
          true
    | None => skip
    end ;;
    match MarketIndicators.buffettIndicator data with
    | Some buffettIndicator =>
        addIndicator history
          "Buffett Indicator"
          (Js.IsString
             [Js.ToFixed (BuffettIndicator.value buffettIndicator) 0;
              Js.Text "%"])
          (BuffettIndicator.value buffettIndicator)
          (normalizeScore (BuffettIndicator.value buffettIndicator)
             80 250 true)
          "valuation"
          "80-250%"
          "시총/GDP 비율. 낮을수록(저평가) 매력 상승"
          80 250
          MarketHistoryRecord.Key.buffett_indicator
          true
    | None => skip
    end ;;
    match MarketIndicators.erp data with
    | Some erp =>
        addIndicator history
          "Equity Risk Premium"
          (Js.IsString [plusSign erp; Js.ToFixed erp 2; Js.Text "%"])
          erp
          (normalizeScore erp (-2) 6 false)
          "valuation"
          "-2% ~ +6%"
          "채권 대비 주식 초과수익률. 높을수록 매력 상승"
          (-2) 6
          MarketHistoryRecord.Key.erp
          false
    | None => skip
    end ;;
    match MarketIndicators.fedBalanceSheet data with
    | Some fedBalanceSheet =>
        addIndicator history
          "Fed Balance Sheet"
          (Js.IsString
             [plusSign (YoY.yoyChange fedBalanceSheet);
              Js.ToFixed (YoY.yoyChange fedBalanceSheet) 1;
              Js.Text "% YoY"])
          (YoY.yoyChange fedBalanceSheet)
          (normalizeScore (YoY.yoyChange fedBalanceSheet) (-5) 15 true)
          "liquidity"
          "-5% ~ +15%"
          "긴축(QT) 중일수록 매력 상승. 완화 전환 시 상승 여력"
          (-5) 15
          MarketHistoryRecord.Key.fed_balance_sheet_yoy
          true
    | None => skip
    end ;;
    match MarketIndicators.m2Growth data with
    | Some m2Growth =>
        addIndicator history
          "M2 Growth"
          (Js.IsString
             [plusSign (YoY.yoyChange m2Growth);
              Js.ToFixed (YoY.yoyChange m2Growth) 1;
              Js.Text "% YoY"])
          (YoY.yoyChange m2Growth)
          (normalizeScore (YoY.yoyChange m2Growth) (-5) 10 true)
          "liquidity"
          "-5% ~ +10%"
          "통화량 감소 중일수록 매력 상승. 확대 전환 시 상승 여력"
          (-5) 10
          MarketHistoryRecord.Key.m2_growth_yoy
          true
    | None => skip
    end ;;
    match MarketIndicators.highYieldSpread data with
    | Some highYieldSpread =>
        if Js.truthy highYieldSpread then
          addIndicator history
            "HY Spread"
            (Js.IsString [Js.ToFixed highYieldSpread 2; Js.Text "%"])
            highYieldSpread
            (normalizeScore highYieldSpread 2.5 8 false)
            "credit"
            "2.5-8%"
            "높을수록(신용위기 우려) 매력 상승. 6%+ 위기 = 기회"
            2.5 8
            MarketHistoryRecord.Key.hy_spread
            false
        else skip
    | None => skip
    end ;;
    match MarketIndicators.yieldCurve10Y2Y data with
    | Some yieldCurve10Y2Y =>
        addIndicator history
          "Yield Curve 10Y-2Y"
          (Js.IsString
             [plusSign yieldCurve10Y2Y; Js.ToFixed yieldCurve10Y2Y 2;
              Js.Text "%"])
          yieldCurve10Y2Y
          (normalizeScore yieldCurve10Y2Y (-1) 2 false)
          "macro"
          "-1% ~ +2%"
          "정상(+)일수록 매력 상승. 역전(-) = 침체 우려"
          (-1) 2
          MarketHistoryRecord.Key.yield_curve_10y2y
          false
    | None => skip
    end ;;
    match MarketIndicators.yieldCurve10Y3M data with
    | Some yieldCurve10Y3M =>
        addIndicator history
          "Yield Curve 10Y-3M"
          (Js.IsString
             [plusSign yieldCurve10Y3M; Js.ToFixed yieldCurve10Y3M 2;
              Js.Text "%"])
          yieldCurve10Y3M
          (normalizeScore yieldCurve10Y3M (-1) 2 false)
          "macro"
          "-1% ~ +2%"
          "연준 중시 지표. 정상(+)일수록 매력 상승"
          (-1) 2
          MarketHistoryRecord.Key.yield_curve_10y3m
          false
    | None => skip
    end ;;
    match MarketIndicators.initialClaims data with
    | Some initialClaims =>
        addIndicator history
          "Initial Claims"
          (Js.IsString
             [Js.ToFixed (InitialClaims.value initialClaims / 1000) 0;
              Js.Text "K"])
          (InitialClaims.value initialClaims)
          (normalizeScore (InitialClaims.value initialClaims)
             200000 400000 false)
          "macro"
          "200K-400K"
          "높을수록(실업 증가) 매력 상승. 바닥 신호 = 반등 기대"
          200000 400000
          MarketHistoryRecord.Key.initial_claims
          false
    | None => skip
    end ) scores.

Definition determineInvestmentStance (avgScore : Q) : InvestmentStance :=
  if Qle_bool 60 avgScore then aggressive_plus
  else if Qle_bool 55 avgScore then aggressive
  else if Qle_bool 50 avgScore then moderate_aggressive
  else if Qle_bool 45 avgScore then neutral
  else if Qle_bool 41 avgScore then moderate_defensive
  else if Qle_bool 0 avgScore then defensive
  else unknown.

Definition indicatorToHistoryField : Js.Record_ MarketHistoryRecord.Key.t :=
  [ ("Fear & Greed", MarketHistoryRecord.Key.fear_greed);
    ("VIX", MarketHistoryRecord.Key.vix);
    ("S&P vs 200MA", MarketHistoryRecord.Key.spy_vs_200ma);
    ("Buffett Indicator", MarketHistoryRecord.Key.buffett_indicator);
    ("Equity Risk Premium", MarketHistoryRecord.Key.erp);
    ("Fed Balance Sheet", MarketHistoryRecord.Key.fed_balance_sheet_yoy);
    ("M2 Growth", MarketHistoryRecord.Key.m2_growth_yoy);
    ("HY Spread", MarketHistoryRecord.Key.hy_spread);
    ("Yield Curve 10Y-2Y", MarketHistoryRecord.Key.yield_curve_10y2y);
    ("Yield Curve 10Y-3M", MarketHistoryRecord.Key.yield_curve_10y3m);
    ("Initial Claims", MarketHistoryRecord.Key.initial_claims) ].

Definition indicatorKoreanName : Js.Record_ string :=
  [ ("Fear & Greed", "공포탐욕지수");
    ("VIX", "변동성지수");
    ("S&P vs 200MA", "S&P 200일선 대비");
    ("Buffett Indicator", "버핏지표");
    ("Equity Risk Premium", "주식위험프리미엄");
    ("Fed Balance Sheet", "연준 대차대조표");
    ("M2 Growth", "M2 통화량");
    ("HY Spread", "하이일드 스프레드");
    ("Yield Curve 10Y-2Y", "장단기금리차 10Y-2Y");
    ("Yield Curve 10Y-3M", "장단기금리차 10Y-3M");
    ("Initial Claims", "신규실업수당청구") ].

(** [Array.prototype.sort(compare)], for a comparator [compare a b] whose
    sign orders the elements: the sort is stable, so the result is the one
    of a stable insertion sort. *)
Fixpoint sortInsert {A : Type} (compare : A -> A -> Q) (x : A) (l : list A)
    : list A :=
  match l with
  | [] => [x]
  | y :: rest =>
      if Qle_bool (compare x y) 0 then x :: y :: rest
      else y :: sortInsert compare x rest
  end.

Fixpoint sort {A : Type} (compare : A -> A -> Q) (l : list A) : list A :=
  match l with
  | [] => []
  | x :: rest => sortInsert compare x (sort compare rest)
  end.

(** [indicatorWeights[name] || 0] *)
Definition weightOrZero (indicatorWeights : Js.Record_ Q) (name : string) : Q :=
  match Js.lookup indicatorWeights name with
  | Some w => if Js.truthy w then w else 0
  | None => 0
  end.

(** [marketHistory.map(h => h[historyField]).filter(v => v !== null)
      .sort((a, b) => a - b)], for a field of type [number | null]. *)
Definition historyValues
    (marketHistory : list MarketHistoryRecord.t)
    (historyField : MarketHistoryRecord.Key.t) : list Q :=
  sort (fun a b => a - b)
    (flat_map
       (fun h =>
          match MarketHistoryRecord.index h historyField with
          | MarketHistoryRecord.VNumber v => [v]
          | _ => []
          end)
       marketHistory).

(** [Math.round((rank / historyValues.length) * 100)] where [rank] counts
    the history values that are [<= currentValue]. *)
Definition percentileOf (historyValues : list Q) (currentValue : Q) : Q :=
  let rank := List.length (filter (fun v => Qle_bool v currentValue)
                             historyValues) in
  JsMath.round
    ((inject_Z (Z.of_nat rank)
      / inject_Z (Z.of_nat (List.length historyValues))) * 100).

(** [`${koreanName}`]: a missing entry interpolates as [undefined]. *)
Definition interpolateName (koreanName : option string) : Js.Piece :=
  match koreanName with
  | Some s => Js.Text s
  | None => Js.Text "undefined"
  end.

(** The body of [if (percentile <= 20 || percentile >= 80) { ... }]: the
    line pushed for the indicator, if its name has a template. *)
Definition extremeLine
    (indicator : IndicatorScore.t) (percentile : Q) : option Js.JsString :=
  let koreanName :=
    interpolateName (Js.lookup indicatorKoreanName
                       (IndicatorScore.name indicator)) in
  let value := Js.interpolate (IndicatorScore.value indicator) in
  let isExtremeLow := Qle_bool percentile 20 in
  let extremeLabel :=
    if isExtremeLow
    then [Js.Text "하위 "; Js.ToString percentile; Js.Text "%"]
    else [Js.Text "상위 "; Js.ToString (100 - percentile); Js.Text "%"] in
  let line (subject : list Js.Piece) (middle ending : string) :=
    Some (subject ++ value ++ [Js.Text middle] ++ extremeLabel
            ++ [Js.Text ending])%list in
  if String.eqb (IndicatorScore.name indicator) "VIX" then
    if isExtremeLow then
      line [koreanName; Js.Text "가 "] "로 "
        " 수준입니다. 시장 안도감이 높아 조정 가능성에 유의하세요."
    else
      line [koreanName; Js.Text "가 "] "로 "
        " 수준의 공포 구간입니다. 역사적으로 높은 VIX는 매수 기회였습니다."
  else if String.eqb (IndicatorScore.name indicator) "HY Spread" then
    if isExtremeLow then
      line [koreanName; Js.Text "가 "] "로 "
        " 수준입니다. 신용 리스크 경계심이 낮아 주의가 필요합니다."
    else
      line [koreanName; Js.Text "가 "] "로 "
        " 수준입니다. 신용 스트레스가 높지만 역발상 매수 기회일 수 있습니다."
  else if String.eqb (IndicatorScore.name indicator) "Initial Claims" then
    if isExtremeLow then
      line [koreanName; Js.Text "가 "] "로 "
        " 수준입니다. 고용시장이 과열 상태로 긴축 지속 가능성이 있습니다."
    else
      line [koreanName; Js.Text "가 "] "로 "
        " 수준입니다. 고용 악화는 연준 완화 전환 신호일 수 있습니다."
  else if String.eqb (IndicatorScore.name indicator) "S&P vs 200MA" then
    if isExtremeLow then
      line [Js.Text "S&P500이 200일선 대비 "] "로 "
        " 수준입니다. 기술적으로 저점 매수 구간입니다."
    else
      line [Js.Text "S&P500이 200일선 대비 "] "로 "
        " 수준입니다. 과열 구간으로 추격 매수는 주의하세요."
  else if String.eqb (IndicatorScore.name indicator) "Yield Curve 10Y-2Y" then
    if isExtremeLow then
      line [koreanName; Js.Text "가 "] "로 "
        " 수준의 역전 상태입니다. 경기 침체 우려가 있지만 주가는 선반영하는 경향이 있습니다."
    else
      line [koreanName; Js.Text "가 "] "로 정상화되어 "
        " 수준입니다. 경기 회복 기대가 반영되고 있습니다."
  else None.

(** The [for ... of] loop over [sortedIndicators]; [commentaries] is the
    array the loop pushes onto.  A [continue] goes to the recursive call
    directly, a [break] returns. *)
Fixpoint commentaryLoop
    (marketHistory : list MarketHistoryRecord.t)
    (sortedIndicators : list IndicatorScore.t)
    (commentaries : list Js.JsString) : list Js.JsString :=
  match sortedIndicators with
  | [] => commentaries
  | indicator :: rest =>
      match Js.lookup indicatorToHistoryField
              (IndicatorScore.name indicator) with
      | None => commentaryLoop marketHistory rest commentaries
      | Some historyField =>
          let historyValues := historyValues marketHistory historyField in
          if (List.length historyValues <? 10)%nat
          then commentaryLoop marketHistory rest commentaries
          else
            let currentValue := IndicatorScore.rawValue indicator in
            let percentile := percentileOf historyValues currentValue in
            let commentaries :=
              if Qle_bool percentile 20 || Qle_bool 80 percentile then
                match extremeLine indicator percentile with
                | Some line => (commentaries ++ [line])%list
                | None => commentaries
                end
              else commentaries in
            if (2 <=? List.length commentaries)%nat then commentaries
            else commentaryLoop marketHistory rest commentaries
      end
  end.

Definition generateExtremeIndicatorCommentary
    (coreIndicators : list IndicatorScore.t)
    (marketHistory : list MarketHistoryRecord.t)
    (indicatorWeights : Js.Record_ Q) : list Js.JsString :=
  let commentaries : list Js.JsString := [] in
  let sortedIndicators :=
    sort (fun a b =>
            weightOrZero indicatorWeights (IndicatorScore.name b)
            - weightOrZero indicatorWeights (IndicatorScore.name a))
         coreIndicators in
  commentaryLoop marketHistory sortedIndicators commentaries.

End Market.

(** ** Definitions used to state and prove the properties *)

Section Auxiliary.

Import CompositeScore.

(** What one block of [calculateCompositeScore] adds to [weightedZScore]
    and to [totalWeight]. *)
Definition zContribution (stat : IndicatorStat) (x : option Q) : Q :=
  match x with
  | Some x =>
      (((if invert stat then - x else x) - mean stat) / std stat) * weight stat
  | None => 0
  end.

Definition wContribution (stat : IndicatorStat) (x : option Q) : Q :=
  match x with Some _ => weight stat | None => 0 end.

(** The value [calculateCompositeScore] returns from a state of the
    accumulators whose total weight is not zero. *)
Definition finish (acc : Acc) : Q :=
  JsMath.round (JsMath.max 0 (JsMath.min 100 (rawScore acc)) * 100) / 100.


(** The momentum score as the specification words it: the score of the
    past period is normalized and then extreme-capped to [15, 85]. *)
Definition momentumScoreWithCappedPast
    (currentBaseScoreRaw pastValue min max : Q) (invert : bool) : Q :=
  let pastBaseScore :=
    Market.applyExtremeCap
      (Market.normalizeScore pastValue min max invert) 15 85 in
  JsMath.max 0
    (JsMath.min 100
       (((currentBaseScoreRaw - pastBaseScore) + 30) / 60 * 100)).

(** A statement keeps a property of every element of [scores]. *)
Definition preserves (P : IndicatorScore.t -> Prop) (st : Market.Stmt) : Prop :=
  forall scores, Forall P scores -> Forall P (st scores).

(** A statement pushes entries with the given names, in that order. *)
Definition appends (names : list string) (st : Market.Stmt) : Prop :=
  forall scores,
    map IndicatorScore.name (st scores)
    = (map IndicatorScore.name scores ++ names)%list.

(** The names of the entries that [calculateIndicatorScores] produces
    for a snapshot, as read off its eleven guards. *)
Definition indicatorNames (data : MarketIndicators.t) : list string :=
  ((match MarketIndicators.fearGreed data with
    | Some _ => ["Fear & Greed"%string] | None => [] end)
   ++ (match MarketIndicators.vix data with
       | Some vix => if Js.truthy vix then ["VIX"%string] else []
       | None => [] end)
   ++ (match MarketIndicators.spyVs200MA data with
       | Some _ => ["S&P vs 200MA"%string] | None => [] end)
   ++ (match MarketIndicators.buffettIndicator data with
       | Some _ => ["Buffett Indicator"%string] | None => [] end)
   ++ (match MarketIndicators.erp data with
       | Some _ => ["Equity Risk Premium"%string] | None => [] end)
   ++ (match MarketIndicators.fedBalanceSheet data with
       | Some _ => ["Fed Balance Sheet"%string] | None => [] end)
   ++ (match MarketIndicators.m2Growth data with
       | Some _ => ["M2 Growth"%string] | None => [] end)
   ++ (match MarketIndicators.highYieldSpread data with
       | Some hy => if Js.truthy hy then ["HY Spread"%string] else []
       | None => [] end)
   ++ (match MarketIndicators.yieldCurve10Y2Y data with
       | Some _ => ["Yield Curve 10Y-2Y"%string] | None => [] end)
   ++ (match MarketIndicators.yieldCurve10Y3M data with
       | Some _ => ["Yield Curve 10Y-3M"%string] | None => [] end)
   ++ (match MarketIndicators.initialClaims data with
       | Some _ => ["Initial Claims"%string] | None => [] end))%list.

(** The line that one iteration of the loop of
    [generateExtremeIndicatorCommentary] pushes for an indicator, if it
    pushes one. *)
Definition lineFor
    (marketHistory : list MarketHistoryRecord.t)
    (indicator : IndicatorScore.t) : option Js.JsString :=
  match Js.lookup Market.indicatorToHistoryField
          (IndicatorScore.name indicator) with
  | None => None
  | Some historyField =>
      let values := Market.historyValues marketHistory historyField in
      if (List.length values <? 10)%nat then None
      else
        let percentile :=
          Market.percentileOf values (IndicatorScore.rawValue indicator) in
        if Qle_bool percentile 20 || Qle_bool 80 percentile
        then Market.extremeLine indicator percentile
        else None
  end.

Definition linesFor
    (marketHistory : list MarketHistoryRecord.t)
    (indicators : list IndicatorScore.t) : list Js.JsString :=
  flat_map
    (fun indicator =>
       match lineFor marketHistory indicator with
       | Some line => [line]
       | None => []
       end)
    indicators.


(** A snapshot and a history for the examples: a VIX of 33 after twelve
    records whose VIX goes from 10 to 21. *)
Definition exampleHistory : list MarketHistoryRecord.t :=
  map (fun v => MarketHistoryRecord.with_vix (Some v)
                  (MarketHistoryRecord.blank "2024-01-05" 50))
    [10; 11; 12; 13; 14; 15; 16; 17; 18; 19; 20; 21].

Definition exampleIndicators : list IndicatorScore.t :=
  Market.calculateIndicatorScores
    (MarketIndicators.mk None (Some 33) None None None None (Some 0)
       (Some 0) (Some 0) None (Some 0) None "2024-04-05")
    exampleHistory.

(** [indicatorWeightsDisplay], the weights the component passes. *)
Definition indicatorWeightsDisplay : Js.Record_ Q :=
  [ ("HY Spread"%string, 28.1);
    ("VIX"%string, 25.7);
    ("Initial Claims"%string, 23.5);
    ("S&P vs 200MA"%string, 16.3);
    ("Yield Curve 10Y-2Y"%string, 6.3) ].

End Auxiliary.

(** ** [src/Market.tsx]: the callers of the scoring functions *)

Module MarketView.

Local Open Scope string_scope.

Definition calculateZScoreBasedScore (data : MarketIndicators.t) : Q :=
  CompositeScore.calculateCompositeScore
    (CompositeScore.mkInput
       (* hySpread *) (MarketIndicators.highYieldSpread data)
       (* hy_spread *) None
       (* vix *) (MarketIndicators.vix data)
       (* initialClaims *)
       (match MarketIndicators.initialClaims data with
        | Some initialClaims => Some (InitialClaims.value initialClaims)
        | None => None
        end)
       (* initial_claims *) None
       (* spyVs200MA *)
       (match MarketIndicators.spyVs200MA data with
        | Some spyVs200MA => Some (SpyVs200MA.percentAbove spyVs200MA)
        | None => None
        end)
       (* spyVs200ma *) None
       (* spy_vs_200ma *) None
       (* yieldCurve10Y2Y *) (MarketIndicators.yieldCurve10Y2Y data)
       (* yield_curve_10y2y *) None).

Definition calculateZScoreFromHistory (record : MarketHistoryRecord.t) : Q :=
  CompositeScore.calculateCompositeScore
    (CompositeScore.mkInput
       (* hySpread *) None
       (* hy_spread *) (MarketHistoryRecord.hy_spread record)
       (* vix *) (MarketHistoryRecord.vix record)
       (* initialClaims *) None
       (* initial_claims *) (MarketHistoryRecord.initial_claims record)
       (* spyVs200MA *) None
       (* spyVs200ma *) None
       (* spy_vs_200ma *) (MarketHistoryRecord.spy_vs_200ma record)
       (* yieldCurve10Y2Y *) None
       (* yield_curve_10y2y *) (MarketHistoryRecord.yield_curve_10y2y record)).

Record Outcome : Type := mkOutcome {
  up : Q;
  down : Q;
  avgUp : Q;
  avgDown : Q
}.

Record StanceProbability : Type := mkProbability {
  week4 : Outcome;
  week12 : Outcome
}.

Definition getStanceProbability (stance : InvestmentStance)
    : StanceProbability :=
  match stance with
  | aggressive_plus =>
      mkProbability (mkOutcome 100 0 12.6 0) (mkOutcome 100 0 23.0 0)
  | aggressive =>
      mkProbability (mkOutcome 100 0 4.6 0) (mkOutcome 88 12 11.8 (-0.8))
  | moderate_aggressive =>
      mkProbability (mkOutcome 72 28 5.4 (-6.9)) (mkOutcome 86 14 7.0 (-2.5))
  | neutral =>
      mkProbability (mkOutcome 58 42 4.2 (-4.3)) (mkOutcome 75 25 7.4 (-5.7))
  | moderate_defensive =>
      mkProbability (mkOutcome 69 31 2.7 (-4.6)) (mkOutcome 67 33 5.5 (-7.5))
  | defensive =>
      mkProbability (mkOutcome 72 28 1.9 (-2.2)) (mkOutcome 84 16 4.1 (-5.7))
  | unknown =>
      mkProbability (mkOutcome 0 0 0 0) (mkOutcome 0 0 0 0)
  end.

(** The rating given to a stored Fear & Greed value. *)
Definition fearGreedRating (fear_greed : Q) : string :=
  if Qle_bool fear_greed 25 then "Extreme Fear"
  else if Qle_bool fear_greed 45 then "Fear"
  else if Qle_bool fear_greed 55 then "Neutral"
  else if Qle_bool fear_greed 75 then "Greed"
  else "Extreme Greed".

(** The object literal that turns a history record into a
    [MarketIndicators]; the source writes it twice, as [transformed] in
    [fetchData] and as the result of [selectedMarketData]. *)
Definition transformed (latest : MarketHistoryRecord.t) : MarketIndicators.t :=
  MarketIndicators.mk
    (match MarketHistoryRecord.fear_greed latest with
     | Some fear_greed =>
         Some (FearGreed.mk fear_greed (fearGreedRating fear_greed)
                 fear_greed fear_greed fear_greed fear_greed)
     | None => None
     end)
    (MarketHistoryRecord.vix latest)
    (match MarketHistoryRecord.spy_vs_200ma latest with
     | Some spy_vs_200ma => Some (SpyVs200MA.mk 0 0 spy_vs_200ma)
     | None => None
     end)
    (match MarketHistoryRecord.buffett_indicator latest with
     | Some buffett_indicator => Some (BuffettIndicator.mk buffett_indicator 0 0)
     | None => None
     end)
    (match MarketHistoryRecord.fed_balance_sheet_yoy latest with
     | Some fed_balance_sheet_yoy => Some (YoY.mk 0 fed_balance_sheet_yoy)
     | None => None
     end)
    (match MarketHistoryRecord.m2_growth_yoy latest with
     | Some m2_growth_yoy => Some (YoY.mk 0 m2_growth_yoy)
     | None => None
     end)
    (MarketHistoryRecord.hy_spread latest)
    (MarketHistoryRecord.yield_curve_10y2y latest)
    (MarketHistoryRecord.yield_curve_10y3m latest)
    (match MarketHistoryRecord.initial_claims latest with
     | Some initial_claims => Some (InitialClaims.mk initial_claims initial_claims)
     | None => None
     end)
    (MarketHistoryRecord.erp latest)
    (MarketHistoryRecord.treasury_3m latest)
    (MarketHistoryRecord.date latest).

(** [array[index]] for an integer index: [undefined], here [None], outside
    the array. *)
Definition at_ {A : Type} (array : list A) (index : Z) : option A :=
  if (index <? 0)%Z then None else nth_error array (Z.to_nat index).

(** The memo [selectedMarketData]: [marketData] is the state holding the
    latest snapshot ([null] until loaded) and [selectedDateIndex] the
    position chosen on the date slider ([null] for the latest). *)
Definition selectedMarketData
    (marketData : option MarketIndicators.t)
    (marketHistory : list MarketHistoryRecord.t)
    (selectedDateIndex : option Z) : option MarketIndicators.t :=
  if (List.length marketHistory =? 0)%nat then marketData
  else
    let index :=
      match selectedDateIndex with
      | Some i => i
      | None => (Z.of_nat (List.length marketHistory) - 1)%Z
      end in
    match at_ marketHistory index with
    | None => marketData
    | Some record => Some (transformed record)
    end.

(** [Math.round(calculateZScoreBasedScore(selectedMarketData))] *)
Definition avgScore (selectedMarketData : MarketIndicators.t) : Q :=
  JsMath.round (calculateZScoreBasedScore selectedMarketData).

(** The stance of the displayed score and its backtest statistics,
    [stance] and [prob] in the render function. *)
Definition stance (selectedMarketData : MarketIndicators.t) : InvestmentStance :=
  Market.determineInvestmentStance (avgScore selectedMarketData).

Definition prob (selectedMarketData : MarketIndicators.t) : StanceProbability :=
  getStanceProbability (stance selectedMarketData).

(** [indicatorWeightsDisplay[s.name] !== undefined] *)
Definition hasDisplayWeight (s : IndicatorScore.t) : bool :=
  match Js.lookup indicatorWeightsDisplay (IndicatorScore.name s) with
  | Some _ => true
  | None => false
  end.

Definition coreIndicators (scores : list IndicatorScore.t)
    : list IndicatorScore.t :=
  filter hasDisplayWeight scores.

Definition refIndicators (scores : list IndicatorScore.t)
    : list IndicatorScore.t :=
  filter (fun s => negb (hasDisplayWeight s)) scores.

(** [marketHistory.map(h => calculateZScoreFromHistory(h))
      .sort((a, b) => b - a)] *)
Definition allScores (marketHistory : list MarketHistoryRecord.t) : list Q :=
  Market.sort (fun a b => b - a) (map calculateZScoreFromHistory marketHistory).

Definition totalCount (marketHistory : list MarketHistoryRecord.t) : nat :=
  List.length (allScores marketHistory).

(** [allScores.filter(s => s > avgScore).length + 1] *)
Definition rankInAll (marketHistory : list MarketHistoryRecord.t)
    (avgScore : Q) : nat :=
  (List.length
     (filter (fun s => negb (Qle_bool s avgScore)) (allScores marketHistory))
   + 1)%nat.

Definition leadingIndicators : list string :=
  ["Yield Curve 10Y-2Y"; "Yield Curve 10Y-3M"; "HY Spread";
   "Fed Balance Sheet"; "M2 Growth"].

Definition coincidentIndicators : list string :=
  ["VIX"; "S&P vs 200MA"; "Initial Claims"; "Equity Risk Premium"].

Definition laggingIndicators : list string :=
  ["Fear & Greed"; "Buffett Indicator"].

(** [array.includes(name)] *)
Definition includes (array : list string) (name : string) : bool :=
  existsb (String.eqb name) array.

(** [timingMap[timing]], for the object [timingMap] of
    [getIndicatorsByTiming]. *)
Definition timingMap (timing : IndicatorTiming) : list string :=
  match timing with
  | leading => leadingIndicators
  | coincident => coincidentIndicators
  | lagging => laggingIndicators
  end.

(** The closure [getIndicatorsByTiming]; [scores] is the captured array. *)
Definition getIndicatorsByTiming
    (scores : list IndicatorScore.t) (timing : IndicatorTiming)
    : list IndicatorScore.t :=
  filter (fun s => includes (timingMap timing) (IndicatorScore.name s)) scores.

End MarketView.

(** ** [api/cron/collect-market-data.ts]

    [calculate200MA], [calculateYoYChange] and the derivation of the
    200-day percentage are the same in
    [netlify/functions/collect-market-data.ts] and in the live-data handler;
    the call of [calculateCompositeScore] is the same in the two
    collectors. *)

Module Collector.

(** [prices.reduce((a, b) => a + b, 0)] *)
Definition sum (prices : list Q) : Q := fold_left Qplus prices 0.

(** [calculate200MA].  For an empty array the source divides 0 by 0 and
    returns NaN, which has no counterpart here: the statements about this
    function are about non-empty arrays. *)
Definition calculate200MA (prices : list Q) : Q :=
  if (List.length prices <? 200)%nat then
    sum prices / inject_Z (Z.of_nat (List.length prices))
  else
    let last200 := skipn (List.length prices - 200) prices in
    sum last200 / 200.


(** [adjclose.filter(p => p != null)] *)
Definition nonNull (adjclose : list (option Q)) : list Q :=
  flat_map (fun p => match p with Some p => [p] | None => [] end) adjclose.

(** The value stored as [spy_vs_200ma], from the current price and the
    adjusted closes of the chart. *)
Definition spyVs200MA (currentPrice : Q) (adjclose : list (option Q)) : Q :=
  let prices := nonNull adjclose in
  let ma200 := calculate200MA prices in
  JsMath.round (((currentPrice - ma200) / ma200) * 10000) / 100.

(** The value stored as [erp], from the rounded 10-year yield. *)
Definition erp (treasury10y : option Q) : option Q :=
  match treasury10y with
  | Some treasury10y =>
      let earningsYield := 5.0 in
      Some (JsMath.round ((earningsYield - treasury10y) * 100) / 100)
  | None => None
  end.

(** The value stored as [composite_score]. *)
Definition compositeScore
    (vix spyVs200MA hySpread yieldCurve10Y2Y initialClaims : option Q) : Q :=
  CompositeScore.calculateCompositeScore
    (CompositeScore.mkInput
       (* hySpread *) hySpread
       (* hy_spread *) None
       (* vix *) vix
       (* initialClaims *) initialClaims
       (* initial_claims *) None
       (* spyVs200MA *) spyVs200MA
       (* spyVs200ma *) None
       (* spy_vs_200ma *) None
       (* yieldCurve10Y2Y *) yieldCurve10Y2Y
       (* yield_curve_10y2y *) None).

End Collector.

(** ** Definitions used to state the further properties *)

Section FurtherAuxiliary.

(** The stances from the least to the most aggressive. *)
Definition stanceRank (stance : InvestmentStance) : nat :=
  match stance with
  | unknown => 0
  | defensive => 1
  | moderate_defensive => 2
  | neutral => 3
  | moderate_aggressive => 4
  | aggressive => 5
  | aggressive_plus => 6
  end%nat.

(** The names of the eleven indicators in the order of the body of
    [calculateIndicatorScores]. *)
Definition indicatorOrder : list string :=
  [ "Fear & Greed"; "VIX"; "S&P vs 200MA"; "Buffett Indicator";
    "Equity Risk Premium"; "Fed Balance Sheet"; "M2 Growth"; "HY Spread";
    "Yield Curve 10Y-2Y"; "Yield Curve 10Y-3M"; "Initial Claims" ]%string.

(** [l] is [l'] with some elements left out. *)
Inductive Subsequence {A : Type} : list A -> list A -> Prop :=
| Subsequence_nil : Subsequence [] []
| Subsequence_skip x l l' : Subsequence l l' -> Subsequence l (x :: l')
| Subsequence_take x l l' : Subsequence l l' -> Subsequence (x :: l) (x :: l').

Definition timing_eqb (a b : IndicatorTiming) : bool :=
  match a, b with
  | leading, leading | coincident, coincident | lagging, lagging => true
  | _, _ => false
  end.

End FurtherAuxiliary.

(** * Properties *)

(** ** Clamping and rounding *)

Section MathFacts.

Import JsMath.

Lemma max_cases (a b : Q) :
  (a <= b /\ max a b = b) \/ (b < a /\ max a b = a).
Proof.
  unfold max. destruct (Qle_bool a b) eqn:E.
  - left. split; [now apply Qle_bool_iff|reflexivity].
  - right. split; [|reflexivity].
    apply Qnot_le_lt. intro H. apply Qle_bool_iff in H. congruence.
Qed.

Lemma min_cases (a b : Q) :
  (a <= b /\ min a b = a) \/ (b < a /\ min a b = b).
Proof.
  unfold min. destruct (Qle_bool a b) eqn:E.
  - left. split; [now apply Qle_bool_iff|reflexivity].
  - right. split; [|reflexivity].
    apply Qnot_le_lt. intro H. apply Qle_bool_iff in H. congruence.
Qed.

(** [max lo (min hi x)] is the clamp idiom of the source. *)
Lemma clamp_bounds (lo hi x : Q) :
  lo <= hi -> lo <= max lo (min hi x) <= hi.
Proof.
  intros Hlh.
  destruct (min_cases hi x) as [[H1 E1]|[H1 E1]]; rewrite E1;
    match goal with
    | |- _ <= max ?l ?a <= _ =>
        destruct (max_cases l a) as [[H3 E3]|[H3 E3]]; rewrite E3
    end; split; lra.
Qed.

Lemma clamp_mono (lo hi x y : Q) :
  x <= y -> max lo (min hi x) <= max lo (min hi y).
Proof.
  intros Hxy.
  destruct (min_cases hi x) as [[H1 E1]|[H1 E1]]; rewrite E1;
    destruct (min_cases hi y) as [[H2 E2]|[H2 E2]]; rewrite E2;
    match goal with
    | |- max ?l ?a <= max ?l ?b =>
        destruct (max_cases l a) as [[H3 E3]|[H3 E3]];
        destruct (max_cases l b) as [[H4 E4]|[H4 E4]];
        rewrite ?E3, ?E4
    end; lra.
Qed.

Lemma round_mono (x y : Q) : x <= y -> round x <= round y.
Proof.
  intros Hxy. unfold round. rewrite <- Zle_Qle.
  apply Qfloor_resp_le. lra.
Qed.

Lemma round_Z (z : Z) : round (inject_Z z) = inject_Z z.
Proof.
  unfold round. f_equal.
  assert (Hlo : (z <= Qfloor (inject_Z z + (1 # 2)))%Z).
  { rewrite <- (Qfloor_Z z) at 1. apply Qfloor_resp_le. lra. }
  assert (Hhi : (Qfloor (inject_Z z + (1 # 2)) < z + 1)%Z).
  { rewrite Zlt_Qlt.
    eapply Qle_lt_trans; [apply Qfloor_le|].
    rewrite inject_Z_plus. change (inject_Z 1) with 1. lra. }
  lia.
Qed.

(** Rounding a value of [0, 100] to two decimals stays in [0, 100]. *)
Lemma round2_bounds (c : Q) :
  0 <= c <= 100 -> 0 <= round (c * 100) / 100 <= 100.
Proof.
  intros [H0 H1].
  assert (Hlo : round (inject_Z 0) <= round (c * 100)).
  { apply round_mono. change (inject_Z 0) with 0. lra. }
  assert (Hhi : round (c * 100) <= round (inject_Z 10000)).
  { apply round_mono. change (inject_Z 10000) with 10000. lra. }
  rewrite round_Z in Hlo, Hhi.
  change (inject_Z 0) with 0 in Hlo.
  change (inject_Z 10000) with 10000 in Hhi.
  unfold Qdiv. change (/ 100) with (1 # 100). lra.
Qed.

End MathFacts.

(** ** The composite score *)

Section CompositeScoreFacts.

Import CompositeScore.

Lemma accumulate_weightedZScore stat x acc :
  weightedZScore (accumulate stat x acc)
  == weightedZScore acc + zContribution stat x.
Proof. destruct x; simpl; lra. Qed.

Lemma accumulate_totalWeight stat x acc :
  totalWeight (accumulate stat x acc)
  == totalWeight acc + wContribution stat x.
Proof. destruct x; simpl; lra. Qed.

Lemma wContribution_nonneg stat x :
  0 < weight stat -> 0 <= wContribution stat x.
Proof. destruct x; simpl; lra. Qed.

Lemma accumulated_totalWeight (data : CompositeScoreInput) :
  totalWeight (accumulated data)
  == wContribution stat_HY_Spread (getValue data [hySpread; hy_spread])
     + wContribution stat_VIX (getValue data [vix])
     + wContribution stat_Initial_Claims
         (getValue data [initialClaims; initial_claims])
     + wContribution stat_SP_vs_200MA
         (getValue data [spyVs200MA; spyVs200ma; spy_vs_200ma])
     + wContribution stat_Yield_Curve_10Y2Y
         (getValue data [yieldCurve10Y2Y; yield_curve_10y2y]).
Proof.
  unfold accumulated. rewrite !accumulate_totalWeight.
  cbn [totalWeight]. lra.
Qed.

Lemma accumulated_weightedZScore (data : CompositeScoreInput) :
  weightedZScore (accumulated data)
  == zContribution stat_HY_Spread (getValue data [hySpread; hy_spread])
     + zContribution stat_VIX (getValue data [vix])
     + zContribution stat_Initial_Claims
         (getValue data [initialClaims; initial_claims])
     + zContribution stat_SP_vs_200MA
         (getValue data [spyVs200MA; spyVs200ma; spy_vs_200ma])
     + zContribution stat_Yield_Curve_10Y2Y
         (getValue data [yieldCurve10Y2Y; yield_curve_10y2y]).
Proof.
  unfold accumulated. rewrite !accumulate_weightedZScore.
  cbn [weightedZScore]. lra.
Qed.

Lemma totalWeight_nonneg (data : CompositeScoreInput) :
  0 <= totalWeight (accumulated data).
Proof.
  rewrite accumulated_totalWeight.
  pose proof (wContribution_nonneg stat_HY_Spread
                (getValue data [hySpread; hy_spread])) as H1.
  pose proof (wContribution_nonneg stat_VIX (getValue data [vix])) as H2.
  pose proof (wContribution_nonneg stat_Initial_Claims
                (getValue data [initialClaims; initial_claims])) as H3.
  pose proof (wContribution_nonneg stat_SP_vs_200MA
                (getValue data [spyVs200MA; spyVs200ma; spy_vs_200ma])) as H4.
  pose proof (wContribution_nonneg stat_Yield_Curve_10Y2Y
                (getValue data [yieldCurve10Y2Y; yield_curve_10y2y])) as H5.
  cbn [weight stat_HY_Spread stat_VIX stat_Initial_Claims stat_SP_vs_200MA
       stat_Yield_Curve_10Y2Y] in H1, H2, H3, H4, H5.
  assert (0 <= wContribution stat_HY_Spread
                 (getValue data [hySpread; hy_spread])) by (apply H1; lra).
  assert (0 <= wContribution stat_VIX (getValue data [vix]))
    by (apply H2; lra).
  assert (0 <= wContribution stat_Initial_Claims
                 (getValue data [initialClaims; initial_claims]))
    by (apply H3; lra).
  assert (0 <= wContribution stat_SP_vs_200MA
                 (getValue data [spyVs200MA; spyVs200ma; spy_vs_200ma]))
    by (apply H4; lra).
  assert (0 <= wContribution stat_Yield_Curve_10Y2Y
                 (getValue data [yieldCurve10Y2Y; yield_curve_10y2y]))
    by (apply H5; lra).
  lra.
Qed.

End CompositeScoreFacts.

(** C1. For every input, whatever subset of its fields is populated,
    [calculateCompositeScore] returns a number of the closed interval
    [0, 100]. *)
Theorem composite_score_in_range (data : CompositeScore.CompositeScoreInput) :
  0 <= CompositeScore.calculateCompositeScore data <= 100.
Proof.
  unfold CompositeScore.calculateCompositeScore.
  destruct (Qeq_bool _ 0).
  - split; lra.
  - apply round2_bounds, clamp_bounds. lra.
Qed.

(** C2. When none of the aliases of the five core fields is populated,
    [calculateCompositeScore] returns exactly 50. *)
Theorem composite_score_no_data (data : CompositeScore.CompositeScoreInput) :
  CompositeScore.hySpread data = None ->
  CompositeScore.hy_spread data = None ->
  CompositeScore.vix data = None ->
  CompositeScore.initialClaims data = None ->
  CompositeScore.initial_claims data = None ->
  CompositeScore.spyVs200MA data = None ->
  CompositeScore.spyVs200ma data = None ->
  CompositeScore.spy_vs_200ma data = None ->
  CompositeScore.yieldCurve10Y2Y data = None ->
  CompositeScore.yield_curve_10y2y data = None ->
  CompositeScore.calculateCompositeScore data = 50.
Proof.
  intros H1 H2 H3 H4 H5 H6 H7 H8 H9 H10.
  unfold CompositeScore.calculateCompositeScore, CompositeScore.accumulated.
  cbn [CompositeScore.getValue].
  rewrite H1, H2, H3, H4, H5, H6, H7, H8, H9, H10. reflexivity.
Qed.

Lemma composite_score_no_data_witness :
  CompositeScore.calculateCompositeScore CompositeScore.empty = 50.
Proof.
  apply (composite_score_no_data CompositeScore.empty); reflexivity.
Defined.

Section Monotonicity.

Import CompositeScore.

Lemma zContribution_VIX_le (v1 v2 : Q) :
  v1 <= v2 ->
  zContribution stat_VIX (Some v1) <= zContribution stat_VIX (Some v2).
Proof.
  intros H. unfold zContribution, stat_VIX.
  cbn [invert mean std weight]. unfold Qdiv. cbn [Qinv Qnum Qden]. lra.
Qed.

Lemma zContribution_SP_ge (v1 v2 : Q) :
  v1 <= v2 ->
  zContribution stat_SP_vs_200MA (Some v2)
  <= zContribution stat_SP_vs_200MA (Some v1).
Proof.
  intros H. unfold zContribution, stat_SP_vs_200MA.
  cbn [invert mean std weight]. unfold Qdiv. cbn [Qinv Qnum Qden]. lra.
Qed.

(** Two accumulator states with the same positive total weight: the raw
    score follows the order of the weighted sums. *)
Lemma rawScore_le (a b : Acc) :
  totalWeight a == totalWeight b ->
  0 < totalWeight a ->
  weightedZScore a <= weightedZScore b ->
  rawScore a <= rawScore b.
Proof.
  intros HT Hpos HW. unfold rawScore.
  assert (weightedZScore a / totalWeight a
          <= weightedZScore b / totalWeight b).
  { rewrite <- HT. unfold Qdiv.
    apply Qmult_le_compat_r;
      [exact HW|apply Qlt_le_weak, Qinv_lt_0_compat; exact Hpos]. }
  lra.
Qed.

Lemma finish_mono (a b : Acc) :
  rawScore a <= rawScore b -> finish a <= finish b.
Proof.
  intros H. unfold finish.
  assert (Hc := clamp_mono 0 100 _ _ H).
  assert (Hr : JsMath.round (JsMath.max 0 (JsMath.min 100 (rawScore a)) * 100)
               <= JsMath.round
                    (JsMath.max 0 (JsMath.min 100 (rawScore b)) * 100)).
  { apply round_mono. lra. }
  unfold Qdiv. change (/ 100) with (1 # 100). lra.
Qed.

Lemma calculateCompositeScore_finish (data : CompositeScoreInput) :
  0 < totalWeight (accumulated data) ->
  calculateCompositeScore data = finish (accumulated data).
Proof.
  intros H. unfold calculateCompositeScore.
  destruct (Qeq_bool (totalWeight (accumulated data)) 0) eqn:E.
  - apply Qeq_bool_eq in E. lra.
  - reflexivity.
Qed.

Lemma totalWeight_with_vix (d : CompositeScoreInput) (v : Q) :
  0 < totalWeight (accumulated (with_vix (Some v) d)).
Proof.
  pose proof (totalWeight_nonneg (with_vix None d)) as H.
  rewrite accumulated_totalWeight in *.
  cbn [getValue with_vix hySpread hy_spread vix initialClaims initial_claims
       spyVs200MA spyVs200ma spy_vs_200ma yieldCurve10Y2Y yield_curve_10y2y]
    in *.
  cbn [wContribution stat_VIX weight] in *. lra.
Qed.

Lemma totalWeight_with_spyVs200MA (d : CompositeScoreInput) (v : Q) :
  0 < totalWeight (accumulated (with_spyVs200MA (Some v) d)).
Proof.
  pose proof (totalWeight_nonneg
                (with_spy_vs_200ma None
                   (with_spyVs200ma None (with_spyVs200MA None d)))) as H.
  rewrite accumulated_totalWeight in *.
  cbn [getValue with_spyVs200MA with_spyVs200ma with_spy_vs_200ma
       hySpread hy_spread vix initialClaims initial_claims
       spyVs200MA spyVs200ma spy_vs_200ma yieldCurve10Y2Y yield_curve_10y2y]
    in *.
  cbn [wContribution stat_SP_vs_200MA weight] in *. lra.
Qed.

End Monotonicity.

(** C3, as the code has it.  With the other fields fixed, a larger [vix]
    never gives a smaller returned score, and a larger [spyVs200MA] never
    gives a larger returned score. *)
Theorem composite_score_monotone
    (d : CompositeScore.CompositeScoreInput) (v1 v2 : Q) :
  v1 <= v2 ->
  CompositeScore.calculateCompositeScore
    (CompositeScore.with_vix (Some v1) d)
  <= CompositeScore.calculateCompositeScore
       (CompositeScore.with_vix (Some v2) d)
  /\ CompositeScore.calculateCompositeScore
       (CompositeScore.with_spyVs200MA (Some v2) d)
     <= CompositeScore.calculateCompositeScore
          (CompositeScore.with_spyVs200MA (Some v1) d).
Proof.
  intros Hv. split.
  - rewrite !calculateCompositeScore_finish by apply totalWeight_with_vix.
    apply finish_mono, rawScore_le.
    + rewrite !accumulated_totalWeight. reflexivity.
    + apply totalWeight_with_vix.
    + rewrite !accumulated_weightedZScore.
      pose proof (zContribution_VIX_le v1 v2 Hv) as Hz.
      cbn [CompositeScore.getValue CompositeScore.with_vix
           CompositeScore.hySpread CompositeScore.hy_spread CompositeScore.vix
           CompositeScore.initialClaims CompositeScore.initial_claims
           CompositeScore.spyVs200MA CompositeScore.spyVs200ma
           CompositeScore.spy_vs_200ma CompositeScore.yieldCurve10Y2Y
           CompositeScore.yield_curve_10y2y].
      lra.
  - rewrite !calculateCompositeScore_finish
      by apply totalWeight_with_spyVs200MA.
    apply finish_mono, rawScore_le.
    + rewrite !accumulated_totalWeight. reflexivity.
    + apply totalWeight_with_spyVs200MA.
    + rewrite !accumulated_weightedZScore.
      pose proof (zContribution_SP_ge v1 v2 Hv) as Hz.
      cbn [CompositeScore.getValue CompositeScore.with_spyVs200MA
           CompositeScore.hySpread CompositeScore.hy_spread CompositeScore.vix
           CompositeScore.initialClaims CompositeScore.initial_claims
           CompositeScore.spyVs200MA CompositeScore.spyVs200ma
           CompositeScore.spy_vs_200ma CompositeScore.yieldCurve10Y2Y
           CompositeScore.yield_curve_10y2y].
      lra.
Qed.

Lemma composite_score_monotone_witness :
  CompositeScore.calculateCompositeScore
    (CompositeScore.with_vix (Some 20) CompositeScore.empty)
  <= CompositeScore.calculateCompositeScore
       (CompositeScore.with_vix (Some 30) CompositeScore.empty)
  /\ CompositeScore.calculateCompositeScore
       (CompositeScore.with_spyVs200MA (Some 30) CompositeScore.empty)
     <= CompositeScore.calculateCompositeScore
          (CompositeScore.with_spyVs200MA (Some 20) CompositeScore.empty).
Proof.
  apply (composite_score_monotone CompositeScore.empty 20 30).
  unfold Qle. simpl. lia.
Defined.

(** C3 as stated fails.  Alone in the input, [vix = 100] and [vix = 200]
    both give 100 (the score is clamped), and [spyVs200MA = 100] and
    [spyVs200MA = 200] both give 0; [vix = 20] and [vix = 20.001] both give
    49.88 (the score is rounded to two decimals). *)
Lemma composite_score_not_strictly_monotone :
  ~ (forall (d : CompositeScore.CompositeScoreInput) (v1 v2 : Q),
        v1 < v2 ->
        CompositeScore.calculateCompositeScore
          (CompositeScore.with_vix (Some v1) d)
        < CompositeScore.calculateCompositeScore
            (CompositeScore.with_vix (Some v2) d))
  /\ ~ (forall (d : CompositeScore.CompositeScoreInput) (v1 v2 : Q),
        v1 < v2 ->
        CompositeScore.calculateCompositeScore
          (CompositeScore.with_spyVs200MA (Some v2) d)
        < CompositeScore.calculateCompositeScore
            (CompositeScore.with_spyVs200MA (Some v1) d))
  /\ CompositeScore.calculateCompositeScore
       (CompositeScore.with_vix (Some 100) CompositeScore.empty) == 100
  /\ CompositeScore.calculateCompositeScore
       (CompositeScore.with_vix (Some 200) CompositeScore.empty) == 100
  /\ CompositeScore.calculateCompositeScore
       (CompositeScore.with_spyVs200MA (Some 100) CompositeScore.empty) == 0
  /\ CompositeScore.calculateCompositeScore
       (CompositeScore.with_spyVs200MA (Some 200) CompositeScore.empty) == 0
  /\ CompositeScore.calculateCompositeScore
       (CompositeScore.with_vix (Some 20) CompositeScore.empty) == 49.88
  /\ CompositeScore.calculateCompositeScore
       (CompositeScore.with_vix (Some 20.001) CompositeScore.empty) == 49.88.
Proof.
  split; [|split].
  - intros H. specialize (H CompositeScore.empty 100 200 eq_refl).
    vm_compute in H. discriminate H.
  - intros H. specialize (H CompositeScore.empty 100 200 eq_refl).
    vm_compute in H. discriminate H.
  - repeat split; vm_compute; reflexivity.
Qed.

(** C7. An input whose only populated field is the verbose alias of a core
    field and an input whose only populated field is a storage alias of the
    same field, both holding [v], have the same score; and when the verbose
    alias of a field is populated, the score does not depend on what its
    other aliases hold (for the three aliases of the 200-day field, the
    second one decides when the first is not populated). *)
Theorem composite_score_alias :
  (forall v : Q,
      CompositeScore.calculateCompositeScore
        (CompositeScore.mkInput (Some v) None None None None
                                None None None None None)
      = CompositeScore.calculateCompositeScore
          (CompositeScore.mkInput None (Some v) None None None
                                  None None None None None))
  /\ (forall v : Q,
      CompositeScore.calculateCompositeScore
        (CompositeScore.mkInput None None None (Some v) None
                                None None None None None)
      = CompositeScore.calculateCompositeScore
          (CompositeScore.mkInput None None None None (Some v)
                                  None None None None None))
  /\ (forall v : Q,
      CompositeScore.calculateCompositeScore
        (CompositeScore.mkInput None None None None None
                                (Some v) None None None None)
      = CompositeScore.calculateCompositeScore
          (CompositeScore.mkInput None None None None None
                                  None None (Some v) None None)
      /\ CompositeScore.calculateCompositeScore
           (CompositeScore.mkInput None None None None None
                                   (Some v) None None None None)
         = CompositeScore.calculateCompositeScore
             (CompositeScore.mkInput None None None None None
                                     None (Some v) None None None))
  /\ (forall v : Q,
      CompositeScore.calculateCompositeScore
        (CompositeScore.mkInput None None None None None
                                None None None (Some v) None)
      = CompositeScore.calculateCompositeScore
          (CompositeScore.mkInput None None None None None
                                  None None None None (Some v)))
  /\ (forall (d : CompositeScore.CompositeScoreInput) (v : Q) (x : option Q),
      CompositeScore.hySpread d = Some v ->
      CompositeScore.calculateCompositeScore (CompositeScore.with_hy_spread x d)
      = CompositeScore.calculateCompositeScore d)
  /\ (forall (d : CompositeScore.CompositeScoreInput) (v : Q) (x : option Q),
      CompositeScore.initialClaims d = Some v ->
      CompositeScore.calculateCompositeScore
        (CompositeScore.with_initial_claims x d)
      = CompositeScore.calculateCompositeScore d)
  /\ (forall (d : CompositeScore.CompositeScoreInput) (v : Q)
             (x y : option Q),
      CompositeScore.spyVs200MA d = Some v ->
      CompositeScore.calculateCompositeScore
        (CompositeScore.with_spyVs200ma x
           (CompositeScore.with_spy_vs_200ma y d))
      = CompositeScore.calculateCompositeScore d)
  /\ (forall (d : CompositeScore.CompositeScoreInput) (v : Q) (x : option Q),
      CompositeScore.yieldCurve10Y2Y d = Some v ->
      CompositeScore.calculateCompositeScore
        (CompositeScore.with_yield_curve_10y2y x d)
      = CompositeScore.calculateCompositeScore d)
  /\ (forall (d : CompositeScore.CompositeScoreInput) (v : Q) (x : option Q),
      CompositeScore.spyVs200MA d = None ->
      CompositeScore.spyVs200ma d = Some v ->
      CompositeScore.calculateCompositeScore
        (CompositeScore.with_spy_vs_200ma x d)
      = CompositeScore.calculateCompositeScore d).
Proof.
  repeat split; try reflexivity;
    intros [a1 a2 a3 a4 a5 a6 a7 a8 a9 a10]; intros;
    unfold CompositeScore.calculateCompositeScore, CompositeScore.accumulated;
    cbn in *; subst; reflexivity.
Qed.

Lemma composite_score_alias_witness :
  CompositeScore.calculateCompositeScore
    (CompositeScore.with_hy_spread (Some 9)
       (CompositeScore.mkInput (Some 5) None None None None
                               None None None None None))
  = CompositeScore.calculateCompositeScore
      (CompositeScore.mkInput (Some 5) None None None None
                              None None None None None).
Proof.
  apply (proj1 (proj2 (proj2 (proj2 (proj2 composite_score_alias))))
           (CompositeScore.mkInput (Some 5) None None None None
                                   None None None None None) 5 (Some 9)).
  reflexivity.
Defined.

(** ** The stance classifier *)

Lemma Qle_bool_false (a b : Q) : Qle_bool a b = false <-> b < a.
Proof.
  split; intros H.
  - apply Qnot_le_lt. intros Hle. apply Qle_bool_iff in Hle. congruence.
  - destruct (Qle_bool a b) eqn:E; [|reflexivity].
    apply Qle_bool_iff in E. lra.
Qed.

Ltac stance_cases x :=
  unfold Market.determineInvestmentStance;
  repeat match goal with
    | |- context [Qle_bool ?c x] =>
        let E := fresh "E" in
        destruct (Qle_bool c x) eqn:E;
        [apply Qle_bool_iff in E | apply Qle_bool_false in E]
    end.

(** C5, as the code has it.  The classifier is a first-match threshold
    lookup from the top: 60 gives [aggressive_plus], 59.99 [aggressive],
    40.99 [defensive], and -5 gives [unknown]; each band of scores has its
    stance, and no score [>= 0] gives [unknown]. *)
Theorem stance_thresholds :
  Market.determineInvestmentStance 60 = aggressive_plus
  /\ Market.determineInvestmentStance 59.99 = aggressive
  /\ Market.determineInvestmentStance 40.99 = defensive
  /\ Market.determineInvestmentStance (-5) = unknown
  /\ (forall x : Q,
        (60 <= x -> Market.determineInvestmentStance x = aggressive_plus)
        /\ (55 <= x < 60 -> Market.determineInvestmentStance x = aggressive)
        /\ (50 <= x < 55 ->
            Market.determineInvestmentStance x = moderate_aggressive)
        /\ (45 <= x < 50 -> Market.determineInvestmentStance x = neutral)
        /\ (41 <= x < 45 ->
            Market.determineInvestmentStance x = moderate_defensive)
        /\ (0 <= x < 41 -> Market.determineInvestmentStance x = defensive)
        /\ (x < 0 -> Market.determineInvestmentStance x = unknown))
  /\ (forall x : Q, 0 <= x -> Market.determineInvestmentStance x <> unknown).
Proof.
  repeat match goal with |- _ /\ _ => split end; try reflexivity;
    intros x; repeat match goal with |- _ /\ _ => split end;
    intros; stance_cases x; try reflexivity; try discriminate; lra.
Qed.

Lemma stance_thresholds_witness :
  Market.determineInvestmentStance 3 <> unknown.
Proof.
  apply (proj2 (proj2 (proj2 (proj2 (proj2 stance_thresholds)))) 3).
  unfold Qle. simpl. lia.
Defined.

(** C5 as stated fails at -5: the classifier answers [unknown] there, not
    [defensive]. *)
Lemma stance_of_negative_is_not_defensive :
  Market.determineInvestmentStance (-5) <> defensive.
Proof. vm_compute. discriminate. Qed.

(** ** The indicator scoring layer *)

Section ScoringFacts.

Lemma preserves_skip P : preserves P Market.skip.
Proof. intros s Hs. exact Hs. Qed.

Lemma preserves_seq P a b :
  preserves P a -> preserves P b -> preserves P (Market.seq a b).
Proof. intros Ha Hb s Hs. apply Hb, Ha, Hs. Qed.

Lemma preserves_run P st : preserves P st -> Forall P (st []).
Proof. intros H. apply H. constructor. Qed.

Lemma appends_skip : appends [] Market.skip.
Proof. intros s. unfold Market.skip. now rewrite app_nil_r. Qed.

Lemma appends_seq n1 n2 a b :
  appends n1 a -> appends n2 b -> appends (n1 ++ n2) (Market.seq a b).
Proof.
  intros Ha Hb s. unfold Market.seq. rewrite Hb, Ha.
  now rewrite app_assoc.
Qed.

Lemma appends_addIndicator h n v rv bsr c r d mn mx hf inv :
  appends [n] (Market.addIndicator h n v rv bsr c r d mn mx hf inv).
Proof.
  intros s. unfold Market.addIndicator. now rewrite map_app.
Qed.

(** Whatever the arguments, the entry pushed by [addIndicator] has both of
    its scores in [15, 85]. *)
Lemma addIndicator_caps h n v rv bsr c r d mn mx hf inv :
  preserves
    (fun e => 15 <= IndicatorScore.baseScore e <= 85
              /\ 15 <= IndicatorScore.score e <= 85)
    (Market.addIndicator h n v rv bsr c r d mn mx hf inv).
Proof.
  intros s Hs. unfold Market.addIndicator.
  apply Forall_app. split; [exact Hs|].
  constructor; [|constructor].
  cbn [IndicatorScore.baseScore IndicatorScore.score].
  unfold Market.applyExtremeCap.
  split; apply clamp_bounds; lra.
Qed.



End ScoringFacts.

Ltac scores_invariant lemma :=
  unfold Market.calculateIndicatorScores; cbv zeta;
  apply preserves_run;
  repeat match goal with
    | |- preserves _ (Market.seq _ _) => apply preserves_seq
    | |- preserves _ Market.skip => apply preserves_skip
    | |- preserves _ (Market.addIndicator _ _ _ _ _ _ _ _ _ _ _ _) =>
        apply lemma
    | |- preserves _ (match ?x with Some _ => _ | None => _ end) =>
        destruct x
    | |- preserves _ (if ?b then _ else _) => destruct b
    end.

(** C6. Every entry produced by [calculateIndicatorScores] has its
    [baseScore] and its final [score] in the closed interval [15, 85]. *)
Theorem indicator_scores_capped
    (data : MarketIndicators.t) (history : list MarketHistoryRecord.t) :
  Forall
    (fun e => 15 <= IndicatorScore.baseScore e <= 85
              /\ 15 <= IndicatorScore.score e <= 85)
    (Market.calculateIndicatorScores data history).
Proof. scores_invariant addIndicator_caps. Qed.


Section MomentumFacts.

Lemma normalizeScore_range (value min max : Q) (invert : bool) :
  min < max -> 0 <= Market.normalizeScore value min max invert <= 100.
Proof.
  intros Hmm. unfold Market.normalizeScore.
  pose proof (clamp_bounds min max value (Qlt_le_weak _ _ Hmm)) as [Hlo Hhi].
  set (clamped := JsMath.max min (JsMath.min max value)) in *.
  assert (Hd : 0 < max - min) by lra.
  assert (H0 : 0 <= (clamped - min) / (max - min)).
  { apply Qle_shift_div_l; [exact Hd|]. lra. }
  assert (H1 : (clamped - min) / (max - min) <= 1).
  { apply Qle_shift_div_r; [exact Hd|]. lra. }
  destruct invert; split; lra.
Qed.

End MomentumFacts.

(** C4, as the code has it.  When the record at index
    [max(0, length - 13)] of the history holds a number in the indicator's
    field, the score of the past period is [normalizeScore] of that number
    with the indicator's own [min], [max] and [invert] -- a value of
    [0, 100] when [min < max], which is not extreme-capped -- and the
    momentum score of the pushed entry is
    [clamp(((baseScoreRaw - pastScore) + 30) / 60 * 100, 0, 100)], while its
    base score is the extreme cap of [baseScoreRaw]. *)
Theorem momentum_step
    (history : list MarketHistoryRecord.t) (scores : list IndicatorScore.t)
    (name : string) (value : Js.NumberOrString) (rawValue baseScoreRaw : Q)
    (category range description : string) (min max : Q)
    (historyField : MarketHistoryRecord.Key.t) (invert : bool)
    (record : MarketHistoryRecord.t) (pastValue : Q) :
  nth_error history
    (Z.to_nat (Z.max 0 (Z.of_nat (List.length history) - 13))) = Some record ->
  MarketHistoryRecord.index record historyField
  = MarketHistoryRecord.VNumber pastValue ->
  exists e,
    Market.addIndicator history name value rawValue baseScoreRaw category
      range description min max historyField invert scores
    = (scores ++ [e])%list
    /\ IndicatorScore.momentumScore e
       = JsMath.max 0
           (JsMath.min 100
              (((baseScoreRaw
                 - Market.normalizeScore pastValue min max invert) + 30)
               / 60 * 100))
    /\ IndicatorScore.baseScore e = Market.applyExtremeCap baseScoreRaw 15 85
    /\ (min < max ->
        0 <= Market.normalizeScore pastValue min max invert <= 100).
Proof.
  intros Hrec Hval. eexists. split; [reflexivity|].
  cbn [IndicatorScore.momentumScore IndicatorScore.baseScore].
  unfold Market.getThreeMonthAgoValue. rewrite Hrec, Hval.
  split; [|split].
  - destruct invert; reflexivity.
  - reflexivity.
  - apply normalizeScore_range.
Qed.

Lemma momentum_step_witness :
  exists e,
    Market.addIndicator
      [MarketHistoryRecord.with_vix (Some 26)
         (MarketHistoryRecord.blank "2024-01-05" 50)]
      "VIX" (Js.IsString [Js.ToFixed 33 1]) 33
      (Market.normalizeScore 33 12 40 false)
      "sentiment" "12-40" "" 12 40 MarketHistoryRecord.Key.vix false []
    = [e]
    /\ IndicatorScore.momentumScore e
       = JsMath.max 0
           (JsMath.min 100
              (((Market.normalizeScore 33 12 40 false
                 - Market.normalizeScore 26 12 40 false) + 30)
               / 60 * 100))
    /\ IndicatorScore.baseScore e
       = Market.applyExtremeCap (Market.normalizeScore 33 12 40 false) 15 85
    /\ (12 < 40 -> 0 <= Market.normalizeScore 26 12 40 false <= 100).
Proof.
  apply (momentum_step
           [MarketHistoryRecord.with_vix (Some 26)
              (MarketHistoryRecord.blank "2024-01-05" 50)] []
           "VIX" (Js.IsString [Js.ToFixed 33 1]) 33
           (Market.normalizeScore 33 12 40 false)
           "sentiment" "12-40" "" 12 40 MarketHistoryRecord.Key.vix false
           (MarketHistoryRecord.with_vix (Some 26)
              (MarketHistoryRecord.blank "2024-01-05" 50)) 26);
    reflexivity.
Defined.

(** C4 as stated fails.  With [vix = 33] now and [vix = 40] in the only
    record of the history, the past score used by the code is 100, not its
    extreme cap 85: the momentum score of the VIX entry is 25/3, where the
    capped past score would give 100/3. *)
Lemma momentum_past_score_is_not_capped :
  map (fun e => (IndicatorScore.name e, Qred (IndicatorScore.momentumScore e)))
    (Market.calculateIndicatorScores
       (MarketIndicators.with_vix (Some 33)
          (MarketIndicators.blank "2024-04-05"))
       [MarketHistoryRecord.with_vix (Some 40)
          (MarketHistoryRecord.blank "2024-01-05" 50)])
  = [("VIX"%string, 25 # 3)]
  /\ Qred (momentumScoreWithCappedPast
             (Market.normalizeScore 33 12 40 false) 40 12 40 false)
     = 100 # 3
  /\ Forall
       (fun e =>
          ~ IndicatorScore.momentumScore e
            == momentumScoreWithCappedPast
                 (Market.normalizeScore 33 12 40 false) 40 12 40 false)
       (Market.calculateIndicatorScores
          (MarketIndicators.with_vix (Some 33)
             (MarketIndicators.blank "2024-04-05"))
          [MarketHistoryRecord.with_vix (Some 40)
             (MarketHistoryRecord.blank "2024-01-05" 50)]).
Proof.
  split; [vm_compute; reflexivity|].
  split; [vm_compute; reflexivity|].
  constructor; [|constructor].
  vm_compute. discriminate.
Qed.

Section GuardFacts.

Lemma truthy_zero (v : Q) : v == 0 -> Js.truthy v = false.
Proof.
  intros H. unfold Js.truthy. now rewrite (Qeq_eq_bool _ _ H).
Qed.

(** The entries of [calculateIndicatorScores] carry the names selected by
    its guards, in the order of the body. *)
Lemma calculateIndicatorScores_names
    (data : MarketIndicators.t) (history : list MarketHistoryRecord.t) :
  map IndicatorScore.name (Market.calculateIndicatorScores data history)
  = indicatorNames data.
Proof.
  unfold Market.calculateIndicatorScores, indicatorNames. cbv zeta.
  match goal with
  | |- map _ (?st []) = ?names =>
      assert (H : appends names st); [|exact (H [])]
  end.
  repeat match goal with
    | |- appends (_ ++ _) (Market.seq _ _) => apply appends_seq
    | |- appends _ (match ?x with Some _ => _ | None => _ end) => destruct x
    | |- appends _ (if ?b then _ else _) => destruct b
    | |- appends [] Market.skip => apply appends_skip
    | |- appends [_] (Market.addIndicator _ _ _ _ _ _ _ _ _ _ _ _) =>
        apply appends_addIndicator
    end.
Qed.

End GuardFacts.

(** [H] says that a name belongs to the names pushed by one guarded block
    of another name. *)
Ltac not_in_guarded H :=
  repeat match type of H with
    | In _ (match ?x with Some _ => _ | None => _ end) => destruct x
    | In _ (if ?b then _ else _) => destruct b
    end;
  cbn [In] in H; repeat destruct H as [H|H]; try discriminate H; try exact H.

(** C10. A [vix] (a [highYieldSpread]) that is present with value 0 is
    treated as an absent one: the result is the one of the snapshot without
    the field, and it has no entry named VIX (HY Spread).  A
    [yieldCurve10Y2Y], [yieldCurve10Y3M] or [erp] that is present with
    value 0 does give an entry. *)
Theorem zero_valued_indicators
    (data : MarketIndicators.t) (history : list MarketHistoryRecord.t)
    (v : Q) :
  v == 0 ->
  (MarketIndicators.vix data = Some v ->
   Market.calculateIndicatorScores data history
   = Market.calculateIndicatorScores
       (MarketIndicators.with_vix None data) history
   /\ ~ In "VIX"%string
          (map IndicatorScore.name
             (Market.calculateIndicatorScores data history)))
  /\ (MarketIndicators.highYieldSpread data = Some v ->
      Market.calculateIndicatorScores data history
      = Market.calculateIndicatorScores
          (MarketIndicators.with_highYieldSpread None data) history
      /\ ~ In "HY Spread"%string
             (map IndicatorScore.name
                (Market.calculateIndicatorScores data history)))
  /\ (MarketIndicators.yieldCurve10Y2Y data = Some v ->
      In "Yield Curve 10Y-2Y"%string
        (map IndicatorScore.name
           (Market.calculateIndicatorScores data history)))
  /\ (MarketIndicators.yieldCurve10Y3M data = Some v ->
      In "Yield Curve 10Y-3M"%string
        (map IndicatorScore.name
           (Market.calculateIndicatorScores data history)))
  /\ (MarketIndicators.erp data = Some v ->
      In "Equity Risk Premium"%string
        (map IndicatorScore.name
           (Market.calculateIndicatorScores data history))).
Proof.
  intros Hv. pose proof (truthy_zero v Hv) as Ht.
  rewrite calculateIndicatorScores_names.
  repeat match goal with |- _ /\ _ => split end; intros Hf;
    try match goal with |- _ /\ _ => split end.
  - unfold Market.calculateIndicatorScores.
    cbn [MarketIndicators.with_vix MarketIndicators.fearGreed
         MarketIndicators.vix MarketIndicators.spyVs200MA
         MarketIndicators.buffettIndicator MarketIndicators.fedBalanceSheet
         MarketIndicators.m2Growth MarketIndicators.highYieldSpread
         MarketIndicators.yieldCurve10Y2Y MarketIndicators.yieldCurve10Y3M
         MarketIndicators.initialClaims MarketIndicators.erp].
    rewrite Hf, Ht. reflexivity.
  - unfold indicatorNames. rewrite Hf, Ht.
    rewrite !in_app_iff. intros H.
    repeat match goal with
      | H : _ \/ _ |- _ => destruct H as [H|H]
      end;
      not_in_guarded H.
  - unfold Market.calculateIndicatorScores.
    cbn [MarketIndicators.with_highYieldSpread MarketIndicators.fearGreed
         MarketIndicators.vix MarketIndicators.spyVs200MA
         MarketIndicators.buffettIndicator MarketIndicators.fedBalanceSheet
         MarketIndicators.m2Growth MarketIndicators.highYieldSpread
         MarketIndicators.yieldCurve10Y2Y MarketIndicators.yieldCurve10Y3M
         MarketIndicators.initialClaims MarketIndicators.erp].
    rewrite Hf, Ht. reflexivity.
  - unfold indicatorNames. rewrite Hf, Ht.
    rewrite !in_app_iff. intros H.
    repeat match goal with
      | H : _ \/ _ |- _ => destruct H as [H|H]
      end;
      not_in_guarded H.
  - unfold indicatorNames. rewrite Hf. rewrite !in_app_iff.
    cbn [In]. tauto.
  - unfold indicatorNames. rewrite Hf. rewrite !in_app_iff.
    cbn [In]. tauto.
  - unfold indicatorNames. rewrite Hf. rewrite !in_app_iff.
    cbn [In]. tauto.
Qed.

Lemma zero_valued_indicators_witness :
  ~ In "VIX"%string
      (map IndicatorScore.name
         (Market.calculateIndicatorScores
            (MarketIndicators.mk None (Some 0) None None None None (Some 0)
               (Some 0) (Some 0) None (Some 0) None "2024-04-05") []))
  /\ In "Yield Curve 10Y-2Y"%string
       (map IndicatorScore.name
          (Market.calculateIndicatorScores
             (MarketIndicators.mk None (Some 0) None None None None (Some 0)
                (Some 0) (Some 0) None (Some 0) None "2024-04-05") [])).
Proof.
  pose proof
    (zero_valued_indicators
       (MarketIndicators.mk None (Some 0) None None None None (Some 0)
          (Some 0) (Some 0) None (Some 0) None "2024-04-05") [] 0 eq_refl)
    as [Hvix [_ [Hyc _]]].
  split.
  - exact (proj2 (Hvix eq_refl)).
  - exact (Hyc eq_refl).
Defined.

(** ** The commentary on extreme indicators *)

Section SortFacts.

Context {A : Type}.
Variable key : A -> Q.
Variable compare : A -> A -> Q.
Hypothesis compare_key : forall a b, compare a b == key a - key b.

Lemma sortInsert_perm (x : A) (l : list A) :
  Permutation (Market.sortInsert compare x l) (x :: l).
Proof.
  induction l as [|y l IH]; cbn [Market.sortInsert].
  - reflexivity.
  - destruct (Qle_bool (compare x y) 0).
    + reflexivity.
    + rewrite IH. apply perm_swap.
Qed.

Lemma sort_perm (l : list A) : Permutation (Market.sort compare l) l.
Proof.
  induction l as [|x l IH]; cbn [Market.sort].
  - reflexivity.
  - rewrite sortInsert_perm. now constructor.
Qed.

Lemma sortInsert_sorted (x : A) (l : list A) :
  StronglySorted (fun a b => key a <= key b) l ->
  StronglySorted (fun a b => key a <= key b) (Market.sortInsert compare x l).
Proof.
  induction l as [|y l IH]; intros Hs; cbn [Market.sortInsert].
  - constructor; constructor.
  - inversion Hs as [|? ? Hl Hy]; subst.
    destruct (Qle_bool (compare x y) 0) eqn:E.
    + apply Qle_bool_iff in E. rewrite compare_key in E.
      constructor; [exact Hs|].
      constructor; [lra|].
      eapply Forall_impl; [|exact Hy]. cbn. intros z Hz. lra.
    + apply Qle_bool_false in E. rewrite compare_key in E.
      constructor; [apply IH, Hl|].
      eapply Permutation_Forall;
        [symmetry; apply sortInsert_perm|].
      constructor; [lra|exact Hy].
Qed.

Lemma sort_sorted (l : list A) :
  StronglySorted (fun a b => key a <= key b) (Market.sort compare l).
Proof.
  induction l as [|x l IH]; cbn [Market.sort].
  - constructor.
  - apply sortInsert_sorted, IH.
Qed.

End SortFacts.


Lemma StronglySorted_weaken {A : Type} (R S : A -> A -> Prop) (l : list A) :
  StronglySorted R l -> (forall a b, R a b -> S a b) -> StronglySorted S l.
Proof.
  intros Hs HRS. induction Hs as [|a l Hl IH Ha]; constructor.
  - exact IH.
  - eapply Forall_impl; [|exact Ha]. intros b. apply HRS.
Qed.

Section CommentaryFacts.

Variable marketHistory : list MarketHistoryRecord.t.

(** One iteration of the loop, in terms of [lineFor]. *)
Lemma commentaryLoop_cons indicator rest commentaries :
  Market.commentaryLoop marketHistory (indicator :: rest) commentaries
  = match lineFor marketHistory indicator with
    | Some line =>
        if (2 <=? List.length (commentaries ++ [line]))%nat
        then (commentaries ++ [line])%list
        else Market.commentaryLoop marketHistory rest
               (commentaries ++ [line])
    | None =>
        match Js.lookup Market.indicatorToHistoryField
                (IndicatorScore.name indicator) with
        | None => Market.commentaryLoop marketHistory rest commentaries
        | Some historyField =>
            if (List.length
                  (Market.historyValues marketHistory historyField)
                <? 10)%nat
            then Market.commentaryLoop marketHistory rest commentaries
            else if (2 <=? List.length commentaries)%nat then commentaries
            else Market.commentaryLoop marketHistory rest commentaries
        end
    end.
Proof.
  cbn [Market.commentaryLoop]. unfold lineFor.
  destruct (Js.lookup Market.indicatorToHistoryField
              (IndicatorScore.name indicator)) as [hf|]; [|reflexivity].
  cbv zeta.
  destruct (List.length (Market.historyValues marketHistory hf) <? 10)%nat;
    [reflexivity|].
  destruct (Qle_bool _ 20 || Qle_bool 80 _); [|reflexivity].
  destruct (Market.extremeLine indicator _); reflexivity.
Qed.

(** The loop returns the first two of the lines of its indicators. *)
Lemma commentaryLoop_firstn indicators commentaries :
  (List.length commentaries < 2)%nat ->
  Market.commentaryLoop marketHistory indicators commentaries
  = firstn 2 (commentaries ++ linesFor marketHistory indicators).
Proof.
  revert commentaries.
  induction indicators as [|indicator rest IH]; intros commentaries Hlen.
  - cbn [Market.commentaryLoop linesFor flat_map].
    rewrite app_nil_r. symmetry. apply firstn_all2. lia.
  - rewrite commentaryLoop_cons. cbn [linesFor flat_map].
    fold (linesFor marketHistory rest).
    destruct (lineFor marketHistory indicator) as [line|].
    + assert (Happ : (commentaries ++ [line] ++ linesFor marketHistory rest
                      = (commentaries ++ [line])
                          ++ linesFor marketHistory rest)%list)
        by apply app_assoc.
      rewrite Happ.
      destruct (2 <=? List.length (commentaries ++ [line]))%nat eqn:E.
      * apply Nat.leb_le in E. rewrite length_app in E. cbn in E.
        assert (Hl : List.length (commentaries ++ [line]) = 2%nat)
          by (rewrite length_app; cbn; lia).
        rewrite <- Hl at 1.
        rewrite firstn_app, firstn_all, Nat.sub_diag.
        cbn [firstn]. now rewrite app_nil_r.
      * apply Nat.leb_gt in E. apply IH. exact E.
    + cbn [app].
      assert (E : (2 <=? List.length commentaries)%nat = false)
        by (apply Nat.leb_gt; exact Hlen).
      rewrite E.
      destruct (Js.lookup Market.indicatorToHistoryField
                  (IndicatorScore.name indicator)) as [hf|];
        [destruct (List.length (Market.historyValues marketHistory hf)
                   <? 10)%nat|];
        apply IH; exact Hlen.
Qed.



End CommentaryFacts.



(** ** The worked examples of the specification *)

Example INDICATOR_STATS_entries :
  Js.lookup CompositeScore.INDICATOR_STATS "HY Spread"
  = Some CompositeScore.stat_HY_Spread
  /\ Js.lookup CompositeScore.INDICATOR_STATS "VIX"
     = Some CompositeScore.stat_VIX
  /\ Js.lookup CompositeScore.INDICATOR_STATS "Initial Claims"
     = Some CompositeScore.stat_Initial_Claims
  /\ Js.lookup CompositeScore.INDICATOR_STATS "S&P vs 200MA"
     = Some CompositeScore.stat_SP_vs_200MA
  /\ Js.lookup CompositeScore.INDICATOR_STATS "Yield Curve 10Y-2Y"
     = Some CompositeScore.stat_Yield_Curve_10Y2Y.
Proof. repeat split. Qed.

(** With every field at its configured mean the four plain indicators
    have a Z-score of 0; the inverted one is negated before its mean is
    subtracted, so its Z-score is not 0. *)
Example composite_score_at_the_means :
  CompositeScore.calculateCompositeScore
    (CompositeScore.mkInput (Some 5.134) None (Some 20.097)
       (Some 358862.6001) None None None None (Some 0.9484) None)
  == 50
  /\ CompositeScore.calculateCompositeScore
       (CompositeScore.mkInput (Some 5.134) None (Some 20.097)
          (Some 358862.6001) None (Some 3.4949) None None (Some 0.9484) None)
     == 48.57.
Proof. split; vm_compute; reflexivity. Qed.

Example composite_score_one_std_above :
  CompositeScore.calculateCompositeScore
    (CompositeScore.with_vix (Some 28.1525) CompositeScore.empty)
  == 60.
Proof. vm_compute. reflexivity. Qed.

Example momentum_default :
  map IndicatorScore.momentumScore
    (Market.calculateIndicatorScores
       (MarketIndicators.with_vix (Some 33)
          (MarketIndicators.blank "2024-04-05")) [])
  = [50].
Proof. vm_compute. reflexivity. Qed.

Example commentary_example :
  map (fun e => (IndicatorScore.name e, Qred (IndicatorScore.score e)))
    exampleIndicators
  = [ ("VIX"%string, 165 # 2);
      ("Equity Risk Premium"%string, 65 # 2);
      ("Yield Curve 10Y-2Y"%string, 125 # 3);
      ("Yield Curve 10Y-3M"%string, 125 # 3) ]
  /\ List.length
       (Market.generateExtremeIndicatorCommentary
          exampleIndicators exampleHistory indicatorWeightsDisplay) = 1%nat.
Proof. split; vm_compute; reflexivity. Qed.

(** * Further properties *)

(** ** [getValue] and [calculateCompositeScore] *)

Section FurtherCompositeFacts.

Lemma round_compat (x y : Q) : x == y -> JsMath.round x = JsMath.round y.
Proof. intros H. unfold JsMath.round. now rewrite H. Qed.

End FurtherCompositeFacts.

(** X1. [getValue] returns the value of the first key that is populated:
    it is [Some v] exactly when the keys split into keys that are not
    populated, a key that holds [v], and the rest; it is [None] exactly when
    no key is populated. *)
Theorem getValue_first_populated
    (data : CompositeScore.CompositeScoreInput)
    (keys : list (CompositeScore.CompositeScoreInput -> option Q)) :
  (forall v,
      CompositeScore.getValue data keys = Some v <->
      exists before key after,
        keys = (before ++ key :: after)%list
        /\ Forall (fun k => k data = None) before
        /\ key data = Some v)
  /\ (CompositeScore.getValue data keys = None <->
      Forall (fun k => k data = None) keys).
Proof.
  induction keys as [|k keys [IHs IHn]]; cbn [CompositeScore.getValue].
  - split.
    + intros v. split; [discriminate|].
      intros [before [key [after [H _]]]]. destruct before; discriminate H.
    + split; constructor.
  - destruct (k data) as [w|] eqn:Ek.
    + split.
      * intros v. split.
        -- intros H. injection H as <-.
           exists [], k, keys. repeat split; [constructor|exact Ek].
        -- intros [before [key [after [Hk [Hb Hv]]]]].
           destruct before as [|b before]; cbn in Hk; injection Hk as <- ->.
           ++ congruence.
           ++ inversion Hb; congruence.
      * split; [discriminate|].
        intros H. inversion H; congruence.
    + split.
      * intros v. rewrite IHs. split.
        -- intros [before [key [after [Hk [Hb Hv]]]]].
           exists (k :: before), key, after. subst keys.
           repeat split; [constructor; assumption|exact Hv].
        -- intros [before [key [after [Hk [Hb Hv]]]]].
           destruct before as [|b before]; cbn in Hk; injection Hk as <- ->.
           ++ congruence.
           ++ exists before, key, after. inversion Hb. repeat split; assumption.
      * rewrite IHn. split.
        -- intros H. constructor; assumption.
        -- intros H. inversion H; assumption.
Qed.

(** X3. The composite score has at most two decimals: it is [n / 100] for
    an integer [n] between 0 and 10000. *)
Theorem composite_score_two_decimals
    (data : CompositeScore.CompositeScoreInput) :
  exists n : Z,
    (0 <= n <= 10000)%Z
    /\ CompositeScore.calculateCompositeScore data == inject_Z n / 100.
Proof.
  unfold CompositeScore.calculateCompositeScore.
  destruct (Qeq_bool _ 0).
  - exists 5000%Z. split; [lia|]. vm_compute. reflexivity.
  - cbv zeta.
    set (c := JsMath.max 0
                (JsMath.min 100
                   (CompositeScore.rawScore (CompositeScore.accumulated data)))).
    assert (Hc : 0 <= c <= 100) by (apply clamp_bounds; lra).
    exists (Qfloor (c * 100 + (1 # 2))). split; [|reflexivity].
    split.
    + change 0%Z with (Qfloor (inject_Z 0)). apply Qfloor_resp_le.
      change (inject_Z 0) with 0. lra.
    + assert (H : (Qfloor (c * 100 + (1 # 2)) <= Qfloor (10000 + (1 # 2)))%Z)
        by (apply Qfloor_resp_le; lra).
      exact H.
Qed.

(** ** [normalizeScore], [calculateMomentumScore], [getThreeMonthAgoValue] *)

Section NormalizeFacts.

Lemma div_le_compat (a b d : Q) : 0 < d -> a <= b -> a / d <= b / d.
Proof.
  intros Hd Hab. unfold Qdiv.
  apply Qmult_le_compat_r; [exact Hab|].
  apply Qlt_le_weak, Qinv_lt_0_compat, Hd.
Qed.

Lemma normalized_mono (min max v1 v2 : Q) :
  min < max -> v1 <= v2 ->
  Market.normalizeScore v1 min max false
  <= Market.normalizeScore v2 min max false.
Proof.
  intros Hmm Hv. unfold Market.normalizeScore.
  pose proof (clamp_mono min max v1 v2 Hv) as Hc.
  assert (H : (JsMath.max min (JsMath.min max v1) - min) / (max - min)
              <= (JsMath.max min (JsMath.min max v2) - min) / (max - min))
    by (apply div_le_compat; lra).
  lra.
Qed.

Lemma normalized_invert (min max v : Q) :
  Market.normalizeScore v min max true
  = 100 - Market.normalizeScore v min max false.
Proof. reflexivity. Qed.

End NormalizeFacts.

(** X4. For [min < max], [normalizeScore] is weakly increasing in the
    value (weakly decreasing when inverted), and it saturates: a value at or
    below [min] scores 0 and a value at or above [max] scores 100 (100 and
    0 when inverted). *)
Theorem normalizeScore_monotone_saturating (min max : Q) :
  min < max ->
  (forall v1 v2, v1 <= v2 ->
     Market.normalizeScore v1 min max false
     <= Market.normalizeScore v2 min max false
     /\ Market.normalizeScore v2 min max true
        <= Market.normalizeScore v1 min max true)
  /\ (forall v, v <= min ->
        Market.normalizeScore v min max false == 0
        /\ Market.normalizeScore v min max true == 100)
  /\ (forall v, max <= v ->
        Market.normalizeScore v min max false == 100
        /\ Market.normalizeScore v min max true == 0).
Proof.
  intros Hmm. split; [|split].
  - intros v1 v2 Hv.
    pose proof (normalized_mono min max v1 v2 Hmm Hv) as H.
    rewrite !normalized_invert. split; lra.
  - intros v Hv.
    assert (E : Market.normalizeScore v min max false == 0).
    { unfold Market.normalizeScore.
      destruct (min_cases max v) as [[H1 E1]|[H1 E1]]; rewrite E1;
        [lra|].
      destruct (max_cases min v) as [[H2 E2]|[H2 E2]]; rewrite E2.
      - assert (Hvm : v == min) by lra. rewrite Hvm. field. lra.
      - field. lra. }
    rewrite normalized_invert. split; lra.
  - intros v Hv.
    assert (E : Market.normalizeScore v min max false == 100).
    { unfold Market.normalizeScore.
      destruct (min_cases max v) as [[H1 E1]|[H1 E1]]; rewrite E1.
      - destruct (max_cases min max) as [[H2 E2]|[H2 E2]]; rewrite E2;
          [field; lra|lra].
      - lra. }
    rewrite normalized_invert. split; lra.
Qed.

Lemma normalizeScore_monotone_saturating_witness :
  Market.normalizeScore 45 12 40 false == 100
  /\ Market.normalizeScore 45 12 40 true == 0.
Proof.
  apply (proj2 (proj2 (normalizeScore_monotone_saturating 12 40 eq_refl)) 45).
  unfold Qle. simpl. lia.
Defined.

(** X5. [calculateMomentumScore] with a past score lies in [0, 100]; it is
    50 when the score has not changed, 100 when it has risen by 30 points or
    more and 0 when it has fallen by 30 points or more; and it is weakly
    increasing in the current score and weakly decreasing in the past one. *)
Theorem momentum_score_shape (current past : Q) :
  0 <= Market.calculateMomentumScore current (Some past) <= 100
  /\ (current == past ->
      Market.calculateMomentumScore current (Some past) == 50)
  /\ (past + 30 <= current ->
      Market.calculateMomentumScore current (Some past) == 100)
  /\ (current <= past - 30 ->
      Market.calculateMomentumScore current (Some past) == 0)
  /\ (forall current', current <= current' ->
        Market.calculateMomentumScore current (Some past)
        <= Market.calculateMomentumScore current' (Some past))
  /\ (forall past', past <= past' ->
        Market.calculateMomentumScore current (Some past')
        <= Market.calculateMomentumScore current (Some past)).
Proof.
  unfold Market.calculateMomentumScore. cbv zeta.
  assert (Hn : forall c p, (c - p + 30) / 60 * 100 == (c - p + 30) * (5 # 3))
    by (intros; field).
  split; [apply clamp_bounds; lra|].
  split; [|split; [|split; [|split]]].
  - intros H.
    destruct (min_cases 100 ((current - past + 30) / 60 * 100))
      as [[H1 E1]|[H1 E1]]; rewrite E1;
      [rewrite Hn in H1; lra|].
    destruct (max_cases 0 ((current - past + 30) / 60 * 100))
      as [[H2 E2]|[H2 E2]]; rewrite E2; rewrite Hn in *; lra.
  - intros H.
    destruct (min_cases 100 ((current - past + 30) / 60 * 100))
      as [[H1 E1]|[H1 E1]]; rewrite E1.
    + destruct (max_cases 0 100) as [[H2 E2]|[H2 E2]]; rewrite E2; lra.
    + rewrite Hn in H1. lra.
  - intros H.
    destruct (min_cases 100 ((current - past + 30) / 60 * 100))
      as [[H1 E1]|[H1 E1]]; rewrite E1;
      [rewrite Hn in H1; lra|].
    destruct (max_cases 0 ((current - past + 30) / 60 * 100))
      as [[H2 E2]|[H2 E2]]; rewrite E2; rewrite Hn in *; lra.
  - intros current' H. apply clamp_mono. rewrite !Hn. lra.
  - intros past' H. apply clamp_mono. rewrite !Hn. lra.
Qed.

Lemma momentum_score_shape_witness :
  Market.calculateMomentumScore 80 (Some 45) == 100.
Proof.
  apply (proj1 (proj2 (proj2 (momentum_score_shape 80 45)))).
  unfold Qle. simpl. lia.
Defined.

(** X6. [getThreeMonthAgoValue] reads one record of the history: none when
    the history is empty, the thirteenth record from the end when there are
    at least thirteen, and the oldest record when there are fewer. *)
Theorem three_month_lookback (field : MarketHistoryRecord.Key.t) :
  Market.getThreeMonthAgoValue [] field = None
  /\ (forall older first rest,
        List.length rest = 12%nat ->
        Market.getThreeMonthAgoValue (older ++ first :: rest) field
        = Market.getThreeMonthAgoValue [first] field)
  /\ (forall first rest,
        (List.length rest < 13)%nat ->
        Market.getThreeMonthAgoValue (first :: rest) field
        = Market.getThreeMonthAgoValue [first] field).
Proof.
  split; [reflexivity|]. split.
  - intros older first rest Hlen. unfold Market.getThreeMonthAgoValue.
    assert (Hidx : Z.to_nat
                     (Z.max 0
                        (Z.of_nat (List.length (older ++ first :: rest)) - 13))
                   = List.length older).
    { rewrite length_app. cbn [List.length]. lia. }
    rewrite Hidx.
    rewrite nth_error_app2 by lia. rewrite Nat.sub_diag. reflexivity.
  - intros first rest Hlen. unfold Market.getThreeMonthAgoValue.
    assert (Hidx : Z.to_nat
                     (Z.max 0 (Z.of_nat (List.length (first :: rest)) - 13))
                   = 0%nat).
    { cbn [List.length]. lia. }
    rewrite Hidx. reflexivity.
Qed.

Lemma three_month_lookback_witness :
  Market.getThreeMonthAgoValue exampleHistory MarketHistoryRecord.Key.vix
  = Market.getThreeMonthAgoValue
      [MarketHistoryRecord.with_vix (Some 10)
         (MarketHistoryRecord.blank "2024-01-05" 50)]
      MarketHistoryRecord.Key.vix.
Proof.
  apply (proj2 (proj2 (three_month_lookback MarketHistoryRecord.Key.vix))
           (MarketHistoryRecord.with_vix (Some 10)
              (MarketHistoryRecord.blank "2024-01-05" 50))
           (map (fun v => MarketHistoryRecord.with_vix (Some v)
                            (MarketHistoryRecord.blank "2024-01-05" 50))
              [11; 12; 13; 14; 15; 16; 17; 18; 19; 20; 21])).
  cbn. lia.
Defined.

(** ** [calculateIndicatorScores] *)

Section FurtherScoringFacts.

Lemma addIndicator_momentum_range h n v rv bsr c r d mn mx hf inv :
  preserves
    (fun e => 0 <= IndicatorScore.momentumScore e <= 100)
    (Market.addIndicator h n v rv bsr c r d mn mx hf inv).
Proof.
  intros s Hs. unfold Market.addIndicator.
  apply Forall_app. split; [exact Hs|].
  constructor; [|constructor].
  cbn [IndicatorScore.momentumScore].
  destruct (Market.getThreeMonthAgoValue h hf) as [past|].
  - unfold Market.calculateMomentumScore. apply clamp_bounds. lra.
  - lra.
Qed.

Lemma addIndicator_no_history n v rv bsr c r d mn mx hf inv :
  preserves
    (fun e => IndicatorScore.momentumScore e = 50)
    (Market.addIndicator [] n v rv bsr c r d mn mx hf inv).
Proof.
  intros s Hs. unfold Market.addIndicator.
  apply Forall_app. split; [exact Hs|].
  constructor; [|constructor]. reflexivity.
Qed.

End FurtherScoringFacts.

(** X7. The momentum score of every entry produced by
    [calculateIndicatorScores] lies in [0, 100], and with an empty history
    every momentum score is exactly 50. *)
Theorem indicator_momentum_range
    (data : MarketIndicators.t) (history : list MarketHistoryRecord.t) :
  Forall (fun e => 0 <= IndicatorScore.momentumScore e <= 100)
    (Market.calculateIndicatorScores data history)
  /\ Forall (fun e => IndicatorScore.momentumScore e = 50)
       (Market.calculateIndicatorScores data []).
Proof.
  split.
  - scores_invariant addIndicator_momentum_range.
  - scores_invariant addIndicator_no_history.
Qed.

Section SubsequenceFacts.

Context {A : Type}.

Lemma Subsequence_In (l l' : list A) (x : A) :
  Subsequence l l' -> In x l -> In x l'.
Proof.
  induction 1 as [|y l l' _ IH|y l l' _ IH]; cbn; intuition.
Qed.

Lemma Subsequence_NoDup (l l' : list A) :
  Subsequence l l' -> NoDup l' -> NoDup l.
Proof.
  induction 1 as [|y l l' Hs IH|y l l' Hs IH]; intros Hnd.
  - constructor.
  - inversion Hnd; auto.
  - inversion Hnd as [|? ? Hy Hl']; subst. constructor; [|auto].
    intros Hin. apply Hy. eapply Subsequence_In; eassumption.
Qed.

Lemma Subsequence_length (l l' : list A) :
  Subsequence l l' -> (List.length l <= List.length l')%nat.
Proof.
  induction 1; cbn; lia.
Qed.

Lemma Subsequence_guard {B : Type} (o : option B) (x : A) (l l' : list A) :
  Subsequence l l' ->
  Subsequence ((match o with Some _ => [x] | None => [] end) ++ l) (x :: l').
Proof. intros H. destruct o; cbn; constructor; exact H. Qed.

Lemma Subsequence_guard_truthy (o : option Q) (x : A) (l l' : list A) :
  Subsequence l l' ->
  Subsequence
    ((match o with
      | Some v => if Js.truthy v then [x] else []
      | None => [] end) ++ l) (x :: l').
Proof.
  intros H. destruct o as [v|]; [destruct (Js.truthy v)|];
    cbn; constructor; exact H.
Qed.

Lemma Subsequence_guard_last {B : Type} (o : option B) (x : A) :
  Subsequence (match o with Some _ => [x] | None => [] end) [x].
Proof.
  destruct o.
  - apply Subsequence_take, Subsequence_nil.
  - apply Subsequence_skip, Subsequence_nil.
Qed.

End SubsequenceFacts.

(** X8. [calculateIndicatorScores] produces its entries in one fixed order
    -- Fear & Greed, VIX, S&P vs 200MA, Buffett Indicator, Equity Risk
    Premium, Fed Balance Sheet, M2 Growth, HY Spread, Yield Curve 10Y-2Y,
    Yield Curve 10Y-3M, Initial Claims -- leaving out the indicators without
    a value: no name occurs twice and there are at most eleven entries. *)
Theorem indicator_entries_order
    (data : MarketIndicators.t) (history : list MarketHistoryRecord.t) :
  Subsequence
    (map IndicatorScore.name (Market.calculateIndicatorScores data history))
    indicatorOrder
  /\ NoDup
       (map IndicatorScore.name
          (Market.calculateIndicatorScores data history))
  /\ (List.length (Market.calculateIndicatorScores data history) <= 11)%nat.
Proof.
  assert (Hsub :
    Subsequence
      (map IndicatorScore.name (Market.calculateIndicatorScores data history))
      indicatorOrder).
  { rewrite calculateIndicatorScores_names.
    unfold indicatorNames, indicatorOrder.
    repeat first
      [ apply Subsequence_guard_last
      | apply Subsequence_guard
      | apply Subsequence_guard_truthy ]. }
  split; [exact Hsub|]. split.
  - apply (Subsequence_NoDup _ _ Hsub).
    unfold indicatorOrder.
    repeat (constructor; [cbn; intuition discriminate|]). constructor.
  - rewrite <- (length_map IndicatorScore.name).
    apply (Subsequence_length _ _ Hsub).
Qed.

(** ** The stance of the displayed score *)

Section FurtherStanceFacts.

Lemma floor_half_range (c : Q) :
  0 <= c <= 100 -> (0 <= Qfloor (c + (1 # 2)) <= 100)%Z.
Proof.
  intros [H0 H1]. split.
  - change 0%Z with (Qfloor (inject_Z 0)). apply Qfloor_resp_le.
    change (inject_Z 0) with 0. lra.
  - assert (H : (Qfloor (c + (1 # 2)) <= Qfloor (100 + (1 # 2)))%Z)
      by (apply Qfloor_resp_le; lra).
    exact H.
Qed.

Lemma calculateZScoreBasedScore_range (data : MarketIndicators.t) :
  0 <= MarketView.calculateZScoreBasedScore data <= 100.
Proof.
  unfold MarketView.calculateZScoreBasedScore,
    CompositeScore.calculateCompositeScore.
  destruct (Qeq_bool _ 0).
  - split; lra.
  - apply round2_bounds, clamp_bounds. lra.
Qed.

Lemma inject_Z_nonneg (n : Z) : (0 <= n)%Z -> 0 <= inject_Z n.
Proof.
  intros H. change (inject_Z 0 <= inject_Z n). rewrite <- Zle_Qle. exact H.
Qed.

Lemma stance_of_nonneg (x : Q) :
  0 <= x -> Market.determineInvestmentStance x <> unknown.
Proof. intros H. stance_cases x; try discriminate. lra. Qed.

Lemma avgScore_integer (data : MarketIndicators.t) :
  exists n : Z, (0 <= n <= 100)%Z /\ MarketView.avgScore data = inject_Z n.
Proof.
  unfold MarketView.avgScore, JsMath.round.
  pose proof (floor_half_range
                (MarketView.calculateZScoreBasedScore data)
                (calculateZScoreBasedScore_range data)) as H.
  eexists. split; [|reflexivity]. exact H.
Qed.

End FurtherStanceFacts.

(** X9. The stance classifier is monotone: a higher score never gives a
    less aggressive stance, in the order unknown, defensive,
    moderate_defensive, neutral, moderate_aggressive, aggressive,
    aggressive_plus. *)
Theorem stance_monotone (x y : Q) :
  x <= y ->
  (stanceRank (Market.determineInvestmentStance x)
   <= stanceRank (Market.determineInvestmentStance y))%nat.
Proof.
  intros Hxy. stance_cases x; stance_cases y; cbn [stanceRank];
    try lia; lra.
Qed.

Lemma stance_monotone_witness :
  (stanceRank (Market.determineInvestmentStance 44)
   <= stanceRank (Market.determineInvestmentStance 56))%nat.
Proof.
  apply (stance_monotone 44 56). unfold Qle. simpl. lia.
Defined.

(** X10. The score that the page displays,
    [Math.round(calculateZScoreBasedScore(data))], is an integer between 0
    and 100, and its stance is never [unknown]. *)
Theorem displayed_stance_is_known (data : MarketIndicators.t) :
  (exists n : Z, (0 <= n <= 100)%Z /\ MarketView.avgScore data = inject_Z n)
  /\ MarketView.stance data <> unknown.
Proof.
  split; [apply avgScore_integer|]. unfold MarketView.stance.
  destruct (avgScore_integer data) as [n [Hn E]]. rewrite E.
  apply stance_of_nonneg, inject_Z_nonneg. lia.
Qed.

(** X11. For the stance of every displayed score, the backtest table of
    [getStanceProbability] gives rise and fall probabilities that add up to
    100 at both horizons, with an average rise that is not negative and an
    average fall that is not positive. *)
Theorem displayed_stance_probabilities (data : MarketIndicators.t) :
  MarketView.up (MarketView.week4 (MarketView.prob data))
  + MarketView.down (MarketView.week4 (MarketView.prob data)) == 100
  /\ MarketView.up (MarketView.week12 (MarketView.prob data))
     + MarketView.down (MarketView.week12 (MarketView.prob data)) == 100
  /\ MarketView.avgDown (MarketView.week4 (MarketView.prob data)) <= 0
     <= MarketView.avgUp (MarketView.week4 (MarketView.prob data))
  /\ MarketView.avgDown (MarketView.week12 (MarketView.prob data)) <= 0
     <= MarketView.avgUp (MarketView.week12 (MarketView.prob data)).
Proof.
  unfold MarketView.prob, MarketView.stance.
  destruct (avgScore_integer data) as [n [Hn E]].
  assert (Hk : Market.determineInvestmentStance (MarketView.avgScore data)
               <> unknown).
  { rewrite E. apply stance_of_nonneg, inject_Z_nonneg. lia. }
  destruct (Market.determineInvestmentStance (MarketView.avgScore data));
    try congruence;
    cbn [MarketView.getStanceProbability MarketView.week4 MarketView.week12
         MarketView.up MarketView.down MarketView.avgUp MarketView.avgDown];
    repeat split; try reflexivity; unfold Qle; simpl; lia.
Qed.

(** ** The groups of indicators shown by the page *)

Section GroupFacts.

Lemma addIndicator_timing_group h n v rv bsr c r d mn mx hf inv :
  (forall t,
      MarketView.includes (MarketView.timingMap t) n
      = timing_eqb
          (Market.timing
             (match Js.lookup Market.indicatorTiming n with
              | Some entry => entry
              | None => Market.mkTiming coincident 0.7 0.3
              end)) t) ->
  preserves
    (fun e =>
       forall t,
         MarketView.includes (MarketView.timingMap t) (IndicatorScore.name e)
         = timing_eqb (IndicatorScore.timing e) t)
    (Market.addIndicator h n v rv bsr c r d mn mx hf inv).
Proof.
  intros Hn s Hs. unfold Market.addIndicator.
  apply Forall_app. split; [exact Hs|].
  constructor; [|constructor]. exact Hn.
Qed.

Lemma filter_ext_Forall {A : Type} (f g : A -> bool) (l : list A) :
  Forall (fun a => f a = g a) l -> filter f l = filter g l.
Proof.
  induction 1 as [|a l Ha _ IH]; cbn; [reflexivity|].
  rewrite Ha, IH. reflexivity.
Qed.

End GroupFacts.

(** X12. The three tabs of the timing view agree with the timing table of
    the scoring layer: for the entries of [calculateIndicatorScores],
    [getIndicatorsByTiming(t)] keeps exactly the entries whose [timing]
    is [t]. *)
Theorem indicators_by_timing
    (data : MarketIndicators.t) (history : list MarketHistoryRecord.t)
    (t : IndicatorTiming) :
  MarketView.getIndicatorsByTiming
    (Market.calculateIndicatorScores data history) t
  = filter (fun e => timing_eqb (IndicatorScore.timing e) t)
      (Market.calculateIndicatorScores data history).
Proof.
  unfold MarketView.getIndicatorsByTiming.
  apply filter_ext_Forall.
  assert (H : Forall
    (fun e =>
       forall t,
         MarketView.includes (MarketView.timingMap t) (IndicatorScore.name e)
         = timing_eqb (IndicatorScore.timing e) t)
    (Market.calculateIndicatorScores data history)).
  { scores_invariant addIndicator_timing_group;
      intros []; vm_compute; reflexivity. }
  eapply Forall_impl; [|exact H]. intros e He. apply He.
Qed.

Section CoreIndicatorFacts.

Lemma display_weight_of_stat (name : string) :
  match Js.lookup CompositeScore.INDICATOR_STATS name with
  | Some stat =>
      exists w,
        Js.lookup indicatorWeightsDisplay name = Some w
        /\ w == JsMath.round (CompositeScore.weight stat * 1000) / 10
        /\ Market.weightOrZero indicatorWeightsDisplay name = w
  | None => Js.lookup indicatorWeightsDisplay name = None
  end.
Proof.
  unfold CompositeScore.INDICATOR_STATS, indicatorWeightsDisplay,
    Market.weightOrZero.
  cbn [Js.lookup].
  repeat match goal with
    | |- context [if String.eqb ?a name then _ else _] =>
        destruct (String.eqb a name);
        [eexists; split; [reflexivity|]; split;
         vm_compute; reflexivity|]
    end.
  reflexivity.
Qed.

End CoreIndicatorFacts.

(** X13. The page splits the entries into core and reference indicators
    by [indicatorWeightsDisplay], and this split is the one of the score
    engine: an entry is a core indicator exactly when its name has an entry
    in [INDICATOR_STATS], a reference indicator otherwise, and the weight
    displayed for a core indicator is its statistical weight as a
    percentage rounded to one decimal. *)
Theorem core_indicators_are_the_scored_ones
    (scores : list IndicatorScore.t) (s : IndicatorScore.t) :
  (In s (MarketView.coreIndicators scores) <->
   In s scores
   /\ Js.lookup CompositeScore.INDICATOR_STATS (IndicatorScore.name s) <> None)
  /\ (In s (MarketView.refIndicators scores) <->
      In s scores
      /\ Js.lookup CompositeScore.INDICATOR_STATS (IndicatorScore.name s)
         = None)
  /\ (forall stat,
        Js.lookup CompositeScore.INDICATOR_STATS (IndicatorScore.name s)
        = Some stat ->
        Market.weightOrZero indicatorWeightsDisplay (IndicatorScore.name s)
        == JsMath.round (CompositeScore.weight stat * 1000) / 10).
Proof.
  pose proof (display_weight_of_stat (IndicatorScore.name s)) as H.
  unfold MarketView.coreIndicators, MarketView.refIndicators.
  rewrite !filter_In. unfold MarketView.hasDisplayWeight.
  destruct (Js.lookup CompositeScore.INDICATOR_STATS (IndicatorScore.name s))
    as [stat|].
  - destruct H as [w [Hw [Hr Hz]]]. rewrite Hw. cbn [negb].
    split; [|split].
    + split; intros [Hin _]; (split; [exact Hin|]);
        [discriminate|reflexivity].
    + split; intros [_ Habs]; discriminate Habs.
    + intros stat' E. injection E as <-. rewrite Hz. exact Hr.
  - rewrite H. cbn [negb].
    split; [|split].
    + split; intros [_ Habs]; [discriminate Habs|congruence].
    + split; intros [Hin _]; (split; [exact Hin|reflexivity]).
    + intros stat' E. discriminate E.
Qed.

Lemma core_indicators_are_the_scored_ones_witness :
  Market.weightOrZero indicatorWeightsDisplay "VIX" == 25.7.
Proof.
  apply (proj2 (proj2
           (core_indicators_are_the_scored_ones []
              (IndicatorScore.mk "VIX" (Js.IsNumber 0) 0 0 0 "" "" "" 0 0 0
                 coincident)))
           CompositeScore.stat_VIX).
  reflexivity.
Defined.

(** ** The score of a stored record *)

(** X14. For a history record, the score computed through the snapshot
    made from it, [calculateZScoreBasedScore(transformed(record))], is the
    score computed from the record itself, [calculateZScoreFromHistory]. *)
Theorem snapshot_score_is_record_score (record : MarketHistoryRecord.t) :
  MarketView.calculateZScoreBasedScore (MarketView.transformed record)
  = MarketView.calculateZScoreFromHistory record.
Proof.
  unfold MarketView.calculateZScoreBasedScore,
    MarketView.calculateZScoreFromHistory, MarketView.transformed,
    CompositeScore.calculateCompositeScore, CompositeScore.accumulated.
  cbn [CompositeScore.getValue
       CompositeScore.hySpread CompositeScore.hy_spread CompositeScore.vix
       CompositeScore.initialClaims CompositeScore.initial_claims
       CompositeScore.spyVs200MA CompositeScore.spyVs200ma
       CompositeScore.spy_vs_200ma CompositeScore.yieldCurve10Y2Y
       CompositeScore.yield_curve_10y2y
       MarketIndicators.highYieldSpread MarketIndicators.vix
       MarketIndicators.initialClaims MarketIndicators.spyVs200MA
       MarketIndicators.yieldCurve10Y2Y].
  destruct (MarketHistoryRecord.hy_spread record);
    destruct (MarketHistoryRecord.vix record);
    destruct (MarketHistoryRecord.initial_claims record);
    destruct (MarketHistoryRecord.spy_vs_200ma record);
    destruct (MarketHistoryRecord.yield_curve_10y2y record);
    reflexivity.
Qed.

(** X15. The page recomputes for a stored record the score that the
    collector computed from the same five values before storing them. *)
Theorem collector_score_is_record_score (record : MarketHistoryRecord.t) :
  Collector.compositeScore
    (MarketHistoryRecord.vix record)
    (MarketHistoryRecord.spy_vs_200ma record)
    (MarketHistoryRecord.hy_spread record)
    (MarketHistoryRecord.yield_curve_10y2y record)
    (MarketHistoryRecord.initial_claims record)
  = MarketView.calculateZScoreFromHistory record.
Proof.
  unfold Collector.compositeScore, MarketView.calculateZScoreFromHistory,
    CompositeScore.calculateCompositeScore, CompositeScore.accumulated.
  cbn [CompositeScore.getValue
       CompositeScore.hySpread CompositeScore.hy_spread CompositeScore.vix
       CompositeScore.initialClaims CompositeScore.initial_claims
       CompositeScore.spyVs200MA CompositeScore.spyVs200ma
       CompositeScore.spy_vs_200ma CompositeScore.yieldCurve10Y2Y
       CompositeScore.yield_curve_10y2y].
  destruct (MarketHistoryRecord.hy_spread record);
    destruct (MarketHistoryRecord.vix record);
    destruct (MarketHistoryRecord.initial_claims record);
    destruct (MarketHistoryRecord.spy_vs_200ma record);
    destruct (MarketHistoryRecord.yield_curve_10y2y record);
    reflexivity.
Qed.

(** ** The snapshot of the selected date *)

(** X16. [selectedMarketData] falls back to the loaded snapshot when the
    history is empty or the selected index is outside it; with no index
    selected it is the snapshot made from the last record, and with an index
    inside the history the snapshot made from that record. *)
Theorem selected_market_data
    (marketData : option MarketIndicators.t) :
  (forall selectedDateIndex,
      MarketView.selectedMarketData marketData [] selectedDateIndex
      = marketData)
  /\ (forall earlier latest,
        MarketView.selectedMarketData marketData (earlier ++ [latest]) None
        = Some (MarketView.transformed latest))
  /\ (forall marketHistory i,
        (i < 0 \/ Z.of_nat (List.length marketHistory) <= i)%Z ->
        MarketView.selectedMarketData marketData marketHistory (Some i)
        = marketData)
  /\ (forall marketHistory i record,
        nth_error marketHistory i = Some record ->
        MarketView.selectedMarketData marketData marketHistory
          (Some (Z.of_nat i))
        = Some (MarketView.transformed record)).
Proof.
  split; [reflexivity|]. split; [|split].
  - intros earlier latest. unfold MarketView.selectedMarketData.
    rewrite length_app. cbn [List.length].
    replace (List.length earlier + 1 =? 0)%nat with false
      by (symmetry; apply Nat.eqb_neq; lia).
    unfold MarketView.at_.
    replace (Z.of_nat (List.length earlier + 1) - 1 <? 0)%Z with false
      by (symmetry; apply Z.ltb_ge; lia).
    replace (Z.to_nat (Z.of_nat (List.length earlier + 1) - 1))
      with (List.length earlier) by lia.
    rewrite nth_error_app2 by lia. rewrite Nat.sub_diag. reflexivity.
  - intros marketHistory i Hi. unfold MarketView.selectedMarketData.
    destruct (List.length marketHistory =? 0)%nat; [reflexivity|].
    unfold MarketView.at_.
    destruct (i <? 0)%Z eqn:E; [reflexivity|].
    apply Z.ltb_ge in E.
    assert (Hn : nth_error marketHistory (Z.to_nat i) = None)
      by (apply nth_error_None; lia).
    rewrite Hn. reflexivity.
  - intros marketHistory i record Hrec.
    unfold MarketView.selectedMarketData.
    destruct (List.length marketHistory =? 0)%nat eqn:E.
    + apply Nat.eqb_eq in E. apply length_zero_iff_nil in E. subst.
      destruct i; discriminate Hrec.
    + unfold MarketView.at_.
      replace (Z.of_nat i <? 0)%Z with false
        by (symmetry; apply Z.ltb_ge; lia).
      rewrite Nat2Z.id, Hrec. reflexivity.
Qed.

Lemma selected_market_data_witness :
  MarketView.selectedMarketData None exampleHistory (Some 12%Z) = None
  /\ MarketView.selectedMarketData None exampleHistory (Some (Z.of_nat 0))
     = Some (MarketView.transformed
               (MarketHistoryRecord.with_vix (Some 10)
                  (MarketHistoryRecord.blank "2024-01-05" 50))).
Proof.
  pose proof (selected_market_data None) as [_ [_ [Hout Hin]]].
  split.
  - apply (Hout exampleHistory 12%Z). right. cbn. lia.
  - apply (Hin exampleHistory 0%nat). reflexivity.
Defined.

Section RawValueFacts.

Variable record : MarketHistoryRecord.t.

Lemma addIndicator_raw_field h n v rv bsr c r d mn mx hf inv :
  (exists field,
      Js.lookup Market.indicatorToHistoryField n = Some field
      /\ MarketHistoryRecord.index record field
         = MarketHistoryRecord.VNumber rv) ->
  preserves
    (fun e =>
       exists field,
         Js.lookup Market.indicatorToHistoryField (IndicatorScore.name e)
         = Some field
         /\ MarketHistoryRecord.index record field
            = MarketHistoryRecord.VNumber (IndicatorScore.rawValue e))
    (Market.addIndicator h n v rv bsr c r d mn mx hf inv).
Proof.
  intros Hn s Hs. unfold Market.addIndicator.
  apply Forall_app. split; [exact Hs|].
  constructor; [|constructor]. exact Hn.
Qed.

End RawValueFacts.

(** X17. For the snapshot made from a history record, the raw value of
    every entry of [calculateIndicatorScores] is the number that the record
    holds in the field that [indicatorToHistoryField] gives to the entry's
    name, the field the percentile of the commentary is computed on. *)
Theorem raw_values_come_from_the_record
    (record : MarketHistoryRecord.t) (history : list MarketHistoryRecord.t) :
  Forall
    (fun e =>
       exists field,
         Js.lookup Market.indicatorToHistoryField (IndicatorScore.name e)
         = Some field
         /\ MarketHistoryRecord.index record field
            = MarketHistoryRecord.VNumber (IndicatorScore.rawValue e))
    (Market.calculateIndicatorScores (MarketView.transformed record) history).
Proof.
  unfold Market.calculateIndicatorScores, MarketView.transformed. cbv zeta.
  cbn [MarketIndicators.fearGreed MarketIndicators.vix
       MarketIndicators.spyVs200MA MarketIndicators.buffettIndicator
       MarketIndicators.fedBalanceSheet MarketIndicators.m2Growth
       MarketIndicators.highYieldSpread MarketIndicators.yieldCurve10Y2Y
       MarketIndicators.yieldCurve10Y3M MarketIndicators.initialClaims
       MarketIndicators.erp].
  apply preserves_run.
  repeat match goal with
    | |- preserves _ (Market.seq _ _) => apply preserves_seq
    | |- preserves _ Market.skip => apply preserves_skip
    | |- preserves _ (match (match ?y with Some _ => _ | None => _ end) with
                      | Some _ => _ | None => _ end) =>
        destruct y eqn:?; cbv beta iota
    | |- preserves _ (match ?y with Some _ => _ | None => _ end) =>
        destruct y eqn:?
    | |- preserves _ (if ?b then _ else _) => destruct b
    | |- preserves _ (Market.addIndicator _ _ _ _ _ _ _ _ _ _ _ _) =>
        apply addIndicator_raw_field
    end;
    eexists; (split; [reflexivity|]);
    cbn [MarketHistoryRecord.index MarketHistoryRecord.nullable
         FearGreed.value SpyVs200MA.percentAbove BuffettIndicator.value
         YoY.yoyChange InitialClaims.value];
    match goal with E : _ = Some _ |- _ => rewrite E end; reflexivity.
Qed.

(** ** Percentiles, commentary and ranks *)

Section PercentileFacts.

Lemma filter_length_le {A : Type} (f : A -> bool) (l : list A) :
  (List.length (filter f l) <= List.length l)%nat.
Proof.
  induction l as [|a l IH]; cbn; [lia|].
  destruct (f a); cbn; lia.
Qed.

Lemma filter_all {A : Type} (f : A -> bool) (l : list A) :
  Forall (fun a => f a = true) l -> filter f l = l.
Proof.
  induction 1 as [|a l Ha _ IH]; cbn; [reflexivity|].
  rewrite Ha, IH. reflexivity.
Qed.

Lemma filter_none {A : Type} (f : A -> bool) (l : list A) :
  Forall (fun a => f a = false) l -> filter f l = [].
Proof.
  induction 1 as [|a l Ha _ IH]; cbn; [reflexivity|].
  rewrite Ha, IH. reflexivity.
Qed.

Lemma inject_Z_nat_nonzero (n : nat) :
  (0 < n)%nat -> ~ inject_Z (Z.of_nat n) == 0.
Proof. intros Hn. unfold Qeq. simpl. lia. Qed.

Lemma ratio_percent (r n : nat) :
  (0 < n)%nat -> (r <= n)%nat ->
  0 <= inject_Z (Z.of_nat r) / inject_Z (Z.of_nat n) * 100 <= 100.
Proof.
  intros Hn Hr.
  assert (Hn' : 0 < inject_Z (Z.of_nat n)).
  { change 0 with (inject_Z 0). rewrite <- Zlt_Qlt. lia. }
  assert (Hr0 : 0 <= inject_Z (Z.of_nat r))
    by (apply inject_Z_nonneg; lia).
  assert (Hrn : inject_Z (Z.of_nat r) <= inject_Z (Z.of_nat n))
    by (rewrite <- Zle_Qle; lia).
  assert (H0 : 0 <= inject_Z (Z.of_nat r) / inject_Z (Z.of_nat n))
    by (apply Qle_shift_div_l; [exact Hn'|lra]).
  assert (H1 : inject_Z (Z.of_nat r) / inject_Z (Z.of_nat n) <= 1)
    by (apply Qle_shift_div_r; [exact Hn'|lra]).
  split; lra.
Qed.

End PercentileFacts.

(** X18. Over a non-empty list of values, [percentileOf] is an integer
    percentage between 0 and 100; it is 100 when no value exceeds the
    current one and 0 when every value exceeds it. *)
Theorem percentile_bounds (values : list Q) (currentValue : Q) :
  values <> [] ->
  (exists n : Z,
      (0 <= n <= 100)%Z
      /\ Market.percentileOf values currentValue = inject_Z n)
  /\ (Forall (fun v => v <= currentValue) values ->
      Market.percentileOf values currentValue = 100)
  /\ (Forall (fun v => currentValue < v) values ->
      Market.percentileOf values currentValue = 0).
Proof.
  intros Hne.
  assert (Hlen : (0 < List.length values)%nat)
    by (destruct values; [congruence|cbn; lia]).
  unfold Market.percentileOf. cbv zeta.
  split; [|split].
  - pose proof (ratio_percent _ _ Hlen
                  (filter_length_le (fun v => Qle_bool v currentValue) values))
      as H.
    unfold JsMath.round. eexists. split; [|reflexivity].
    apply floor_half_range. exact H.
  - intros Hall.
    rewrite filter_all
      by (eapply Forall_impl; [|exact Hall]; intros v Hv;
          apply Qle_bool_iff; exact Hv).
    rewrite (round_compat _ (inject_Z 100)); [apply round_Z|].
    field. apply inject_Z_nat_nonzero, Hlen.
  - intros Hall.
    rewrite filter_none
      by (eapply Forall_impl; [|exact Hall]; intros v Hv;
          apply Qle_bool_false; exact Hv).
    cbn [List.length].
    rewrite (round_compat _ (inject_Z 0)); [apply round_Z|].
    change (inject_Z (Z.of_nat 0)) with 0. field.
    apply inject_Z_nat_nonzero, Hlen.
Qed.

Lemma percentile_bounds_witness :
  Market.percentileOf [10; 12; 14] 15 = 100.
Proof.
  apply (proj1 (proj2 (percentile_bounds [10; 12; 14] 15 ltac:(discriminate)))).
  repeat constructor; unfold Qle; simpl; lia.
Defined.

Section ShortHistoryFacts.

Lemma historyValues_length (marketHistory : list MarketHistoryRecord.t)
    (field : MarketHistoryRecord.Key.t) :
  (List.length (Market.historyValues marketHistory field)
   <= List.length marketHistory)%nat.
Proof.
  unfold Market.historyValues.
  rewrite (Permutation_length (sort_perm _ _)).
  induction marketHistory as [|h rest IH]; cbn [flat_map List.length];
    [lia|].
  rewrite length_app.
  destruct (MarketHistoryRecord.index h field); cbn [List.length]; lia.
Qed.

Lemma lineFor_short_history (marketHistory : list MarketHistoryRecord.t)
    (indicator : IndicatorScore.t) :
  (List.length marketHistory < 10)%nat ->
  lineFor marketHistory indicator = None.
Proof.
  intros Hlen. unfold lineFor.
  destruct (Js.lookup Market.indicatorToHistoryField
              (IndicatorScore.name indicator)) as [hf|]; [|reflexivity].
  cbv zeta.
  pose proof (historyValues_length marketHistory hf) as H.
  replace (List.length (Market.historyValues marketHistory hf) <? 10)%nat
    with true by (symmetry; apply Nat.ltb_lt; lia).
  reflexivity.
Qed.

End ShortHistoryFacts.

(** X19. With fewer than ten records in the history
    [generateExtremeIndicatorCommentary] returns no commentary, whatever
    the indicators and weights. *)
Theorem commentary_needs_ten_records
    (coreIndicators : list IndicatorScore.t)
    (marketHistory : list MarketHistoryRecord.t)
    (indicatorWeights : Js.Record_ Q) :
  (List.length marketHistory < 10)%nat ->
  Market.generateExtremeIndicatorCommentary
    coreIndicators marketHistory indicatorWeights = [].
Proof.
  intros Hlen. unfold Market.generateExtremeIndicatorCommentary. cbv zeta.
  rewrite commentaryLoop_firstn by (cbn; lia).
  cbn [app]. unfold linesFor.
  induction (Market.sort _ coreIndicators) as [|indicator rest IH];
    [reflexivity|].
  cbn [flat_map]. rewrite (lineFor_short_history _ _ Hlen). exact IH.
Qed.

Lemma commentary_needs_ten_records_witness :
  Market.generateExtremeIndicatorCommentary
    exampleIndicators (firstn 9 exampleHistory) indicatorWeightsDisplay = [].
Proof.
  apply (commentary_needs_ten_records
           exampleIndicators (firstn 9 exampleHistory)
           indicatorWeightsDisplay).
  cbn. lia.
Defined.

Section RankFacts.

Lemma descending_split (avgScore : Q) (l : list Q) :
  StronglySorted (fun a b => b <= a) l ->
  Forall (fun s => avgScore < s)
    (firstn
       (List.length (filter (fun s => negb (Qle_bool s avgScore)) l)) l)
  /\ Forall (fun s => s <= avgScore)
       (skipn
          (List.length (filter (fun s => negb (Qle_bool s avgScore)) l)) l).
Proof.
  induction 1 as [|a l Hs IH Ha]; cbn [filter]; [split; constructor|].
  destruct (Qle_bool a avgScore) eqn:E; cbn [negb].
  - apply Qle_bool_iff in E.
    assert (Hl : Forall (fun s => s <= avgScore) l).
    { eapply Forall_impl; [|exact Ha]. cbn. intros s Hsa. lra. }
    rewrite filter_none.
    + cbn. split; [constructor|]. constructor; assumption.
    + eapply Forall_impl; [|exact Hl]. intros s Hsa. cbn.
      apply Qle_bool_iff in Hsa. now rewrite Hsa.
  - apply Qle_bool_false in E. cbn [List.length firstn skipn].
    destruct IH as [IH1 IH2]. split; [constructor; assumption|exact IH2].
Qed.

End RankFacts.

(** X20. The rank displayed for a score among the scores of the history
    lies between 1 and the number of records plus one, and it is the
    position of the score in the descending order: exactly the [rank - 1]
    first scores of [allScores] exceed it. *)
Theorem rank_in_history
    (marketHistory : list MarketHistoryRecord.t) (avgScore : Q) :
  MarketView.totalCount marketHistory = List.length marketHistory
  /\ (1 <= MarketView.rankInAll marketHistory avgScore
      <= MarketView.totalCount marketHistory + 1)%nat
  /\ Forall (fun s => avgScore < s)
       (firstn (MarketView.rankInAll marketHistory avgScore - 1)
          (MarketView.allScores marketHistory))
  /\ Forall (fun s => s <= avgScore)
       (skipn (MarketView.rankInAll marketHistory avgScore - 1)
          (MarketView.allScores marketHistory)).
Proof.
  unfold MarketView.totalCount, MarketView.rankInAll.
  split.
  - unfold MarketView.allScores.
    rewrite (Permutation_length (sort_perm _ _)). apply length_map.
  - split.
    + pose proof (filter_length_le
                    (fun s => negb (Qle_bool s avgScore))
                    (MarketView.allScores marketHistory)).
      lia.
    + rewrite Nat.add_sub.
      apply descending_split. unfold MarketView.allScores.
      eapply StronglySorted_weaken.
      * apply (sort_sorted (fun s : Q => - s)). intros a b. ring.
      * cbn beta. intros a b Hab. lra.
Qed.

(** ** The collector *)

Section CollectorFacts.


End CollectorFacts.

(** X21. With 200 prices or more, [calculate200MA] depends on the last 200
    only: older prices in front of a window of 200 do not change it. *)
Theorem moving_average_window (older recent : list Q) :
  List.length recent = 200%nat ->
  Collector.calculate200MA (older ++ recent)
  = Collector.calculate200MA recent.
Proof.
  intros Hlen. unfold Collector.calculate200MA.
  rewrite length_app, Hlen.
  replace (List.length older + 200 <? 200)%nat with false
    by (symmetry; apply Nat.ltb_ge; lia).
  replace (200 <? 200)%nat with false by reflexivity.
  cbv zeta.
  rewrite Nat.add_sub, Nat.sub_diag.
  rewrite skipn_app, skipn_all, Nat.sub_diag. reflexivity.
Qed.

Lemma moving_average_window_witness :
  Collector.calculate200MA ([1; 2; 3] ++ repeat 7 200)
  = Collector.calculate200MA (repeat 7 200).
Proof.
  apply (moving_average_window [1; 2; 3] (repeat 7 200)).
  apply repeat_length.
Defined.

(** X23. For a positive moving average, the percentage stored as
    [spy_vs_200ma] is not negative when the current price is at or above
    the average, not positive when it is at or below, 0 when they are
    equal, and it never decreases when the current price increases. *)
Theorem spy_vs_200ma_sign (currentPrice : Q) (adjclose : list (option Q)) :
  0 < Collector.calculate200MA (Collector.nonNull adjclose) ->
  (Collector.calculate200MA (Collector.nonNull adjclose) <= currentPrice ->
   0 <= Collector.spyVs200MA currentPrice adjclose)
  /\ (currentPrice <= Collector.calculate200MA (Collector.nonNull adjclose) ->
      Collector.spyVs200MA currentPrice adjclose <= 0)
  /\ (currentPrice == Collector.calculate200MA (Collector.nonNull adjclose) ->
      Collector.spyVs200MA currentPrice adjclose == 0)
  /\ (forall currentPrice',
        currentPrice <= currentPrice' ->
        Collector.spyVs200MA currentPrice adjclose
        <= Collector.spyVs200MA currentPrice' adjclose).
Proof.
  unfold Collector.spyVs200MA. cbv zeta.
  set (ma200 := Collector.calculate200MA (Collector.nonNull adjclose)).
  intros Hma.
  assert (Hgap : forall p q, p <= q -> (p - ma200) / ma200 <= (q - ma200) / ma200).
  { intros p q Hpq. unfold Qdiv. apply Qmult_le_compat_r; [lra|].
    apply Qlt_le_weak, Qinv_lt_0_compat, Hma. }
  assert (Hzero : (ma200 - ma200) / ma200 == 0) by (field; lra).
  assert (Hr0 : JsMath.round (inject_Z 0) = inject_Z 0) by apply round_Z.
  change (inject_Z 0) with 0 in Hr0.
  assert (Hdiv : forall r, r / 100 == r * (1 # 100)) by (intros; field).
  assert (Hmono : forall p q, p <= q ->
            JsMath.round ((p - ma200) / ma200 * 10000) / 100
            <= JsMath.round ((q - ma200) / ma200 * 10000) / 100).
  { intros p q Hpq. specialize (Hgap p q Hpq).
    assert (Hr : JsMath.round ((p - ma200) / ma200 * 10000)
                 <= JsMath.round ((q - ma200) / ma200 * 10000))
      by (apply round_mono; lra).
    rewrite !Hdiv. lra. }
  assert (Hat : JsMath.round ((ma200 - ma200) / ma200 * 10000) / 100 == 0).
  { assert (E : (ma200 - ma200) / ma200 * 10000 == 0) by (rewrite Hzero; ring).
    rewrite (round_compat _ _ E), Hr0. field. }
  split; [|split; [|split]].
  - intros H. rewrite <- Hat. apply Hmono, H.
  - intros H. rewrite <- Hat. apply Hmono, H.
  - intros H. apply Qle_antisym.
    + rewrite <- Hat. apply Hmono. rewrite H. apply Qle_refl.
    + rewrite <- Hat. apply Hmono. rewrite H. apply Qle_refl.
  - intros currentPrice' H. apply Hmono, H.
Qed.

Lemma spy_vs_200ma_sign_witness :
  0 <= Collector.spyVs200MA 450 [Some 400; None; Some 420].
Proof.
  apply (proj1 (spy_vs_200ma_sign 450 [Some 400; None; Some 420] eq_refl)).
  vm_compute. discriminate.
Defined.




